(** * SUSE Observability MCP server: query construction and result tables

    A shallow embedding of the tool handlers of [internal/tools]
    ([GetComponents], [GetMonitors], [ListMetrics], [QueryRangeMetric] and
    their table renderers) together with the properties the specification
    states about them.

    Conventions of the embedding:
    - a Go [string] is a sequence of bytes, hence a Rocq [string];
    - Go's [int] and [int64] values are [Z]; no arithmetic of the handlers
      can leave the 64-bit range (the only subtraction is [len(s) - 5]);
    - a handler returns a [CallToolResult] or an error, hence a
      [result string]: [Ok text] is a result with one text content and a nil
      error, [Err msg] is a nil result with the error whose message is [msg];
    - calls on [t.client] and reads of the clock are the nodes of a finite
      interaction tree ([prog]); a [handler] answers them from a world state,
      so the backend may answer the same request differently each time. *)

From Stdlib Require Import ZArith Floats.
From stdpp Require Import gmap strings list fin_maps sorting pretty.

Set Warnings "-clear-no-such-hyp".

Open Scope string_scope.
Open Scope list_scope.

(** ** Strings and formatting *)

(** The double quote character, written with its code. *)
Definition dquote : string := String (Ascii.ascii_of_nat 34) EmptyString.

(** The line feed character. *)
Definition nl : string := String (Ascii.ascii_of_nat 10) EmptyString.

(** [fmt.Sprintf] with the verb [%d] on an integer. *)
Definition fmt_d (n : Z) : string := pretty n.

(** [strings.Join]. *)
Definition strings_Join (elems : list string) (sep : string) : string :=
  String.concat sep elems.

(** Comparison of a Go string with the empty string. *)
Definition is_empty (s : string) : bool := String.eqb s "".

(** ** Results and errors *)

Inductive result (A : Type) : Type :=
| Ok (a : A)
| Err (msg : string).
Arguments Ok {A} a.
Arguments Err {A} msg.

(** ** Types of the backend client

    The package [client/suseobservability] declares the records the client
    returns; each one is given here with the fields the handlers read. *)

Module ViewComponent.
(** Modelled from the spec: the raw entity returned by the topology query
    (identity, name, type, identifiers, tags, outgoing relation ids), of the
    client package. *)
Record t := mk {
  ID : Z;
  Name : string;
  InternalType : string;
  Identifiers : list string;
  Tags : list string;
  OutgoingRelations : list Z }.
End ViewComponent.

Module Monitor.
(** Modelled from the spec: the monitor definition of the monitor overview,
    of the client package. *)
Record t := mk {
  Id : Z;
  Name : string;
  Description : string }.
End Monitor.

Module RuntimeMetrics.
(** Modelled from the spec: the runtime counters of a monitor, one integer
    per health state read by [GetMonitors], of the client package. *)
Record t := mk {
  CriticalCount : Z;
  DeviatingCount : Z;
  UnknownCount : Z }.
End RuntimeMetrics.

Module MonitorOverview.
(** Modelled from the spec: a monitor definition paired with its runtime
    counters, of the client package. *)
Record t := mk {
  Monitor : Monitor.t;
  RuntimeMetrics : RuntimeMetrics.t }.
End MonitorOverview.

Module MonitorsOverview.
(** Modelled from the spec: the answer of the monitor overview source, of
    the client package. *)
Record t := mk { Monitors : list MonitorOverview.t }.
End MonitorsOverview.

Module CheckState.
(** Modelled from the spec: a check-state record, the reference to an
    affected entity with its display name, of the client package. *)
Record t := mk {
  TopologyElementId : Z;
  TopologyElementIdType : string;
  Name : string }.
End CheckState.

Module CheckStates.
(** Modelled from the spec: one page of check states, of the client
    package. *)
Record t := mk { States : list CheckState.t }.
End CheckStates.

Module Point.
(** Modelled from the spec: a sample of a series, a Unix timestamp in
    seconds and a [float64] value, of the client package. *)
Record t := mk {
  Timestamp : Z;
  Value : float }.
End Point.

Module MetricResult.
(** Modelled from the spec: a metric series, a label set and its samples in
    order, of the client package. *)
Record t := mk {
  Labels : gmap string string;
  Points : list Point.t }.
End MetricResult.

(** A [time.Time], as nanoseconds since the epoch. *)
Definition Time := Z.
Definition time_Hour : Z := 3600 * 1000000000.

(** A [time.Duration] is an [int64] count of nanoseconds.  [int64_wrap] is
    the value a 64-bit signed integer keeps of a result, and
    [neg_Duration d] is Go's [-d] on a duration: the opposite of [d], but for
    the least duration, which is its own opposite. *)
Definition int64_wrap (z : Z) : Z :=
  ((z + 2 ^ 63) mod 2 ^ 64 - 2 ^ 63)%Z.

Definition neg_Duration (d : Z) : Z := int64_wrap (- d).

(** ** Effects: requests to the backend and to the clock *)

(** Modelled from the spec: the methods of the client the handlers call, each
    with the type of its answer ([ClientListMetrics] and
    [ClientQueryRangeMetric] are the client's [ListMetrics] and
    [QueryRangeMetric]), and the read of the clock [time.Now]. *)
Inductive call : Type -> Type :=
| SnapShotTopologyQuery (query : string) : call (result (list ViewComponent.t))
| GetMonitorsOverview : call (result MonitorsOverview.t)
| GetMonitorCheckStates (monitorId state : string) (limit offset : Z)
  : call (result CheckStates.t)
| ClientListMetrics (start end_ : Time) : call (result (list string))
| GetMetricLabels (metricName : string) (start end_ : Time)
  : call (result (list string))
| ClientQueryRangeMetric (query : string) (start end_ : Time)
    (step timeout : string) : call (result (list MetricResult.t))
| time_Now : call Time.

(** Every request but the clock read goes to the backend. *)
Definition is_backend {R} (c : call R) : bool :=
  match c with
  | time_Now => false
  | _ => true
  end.

Inductive prog (A : Type) : Type :=
| Ret (a : A)
| Do {R : Type} (c : call R) (k : R -> prog A).
Arguments Ret {A} a.
Arguments Do {A R} c k.

Fixpoint bind {A B} (m : prog A) (f : A -> prog B) : prog B :=
  match m with
  | Ret a => f a
  | Do c k => Do c (fun r => bind (k r) f)
  end.

Notation "x <- m ;; f" := (bind m (fun x => f))
  (at level 100, m at next level, right associativity).

Definition perform {R} (c : call R) : prog R := Do c Ret.

(** A request as it appears in a trace, without its answer. *)
Inductive request : Type :=
| Req {R : Type} (c : call R).

Definition req_is_backend (r : request) : bool :=
  match r with Req c => is_backend c end.

(** The environment: it answers a request and moves to a new state. *)
Definition handler (W : Type) : Type := forall R, call R -> W -> R * W.

(** [run h m w] runs [m] against [h] from the state [w]; it yields the value,
    the final state and the requests made, oldest first. *)
Fixpoint run {W A} (h : handler W) (m : prog A) (w : W) : A * W * list request :=
  match m with
  | Ret a => (a, w, [])
  | Do c k =>
      let '(r, w') := h _ c w in
      let '(a, w'', tr) := run h (k r) w' in
      (a, w'', Req c :: tr)
  end.

Definition run_value {W A} (h : handler W) (m : prog A) (w : W) : A :=
  (run h m w).1.1.
Definition run_trace {W A} (h : handler W) (m : prog A) (w : W) : list request :=
  (run h m w).2.
Definition backend_calls {W A} (h : handler W) (m : prog A) (w : W) : list request :=
  filter (fun r => req_is_backend r = true) (run_trace h m w).

(** ** [getComponents] *)

Module GetComponentsParams.
Record t := mk {
  Query : string;
  NamePattern : string;
  Type_ : string;
  Layer : string;
  Domain : string;
  HealthState : string;
  WithNeighbors : bool;
  WithNeighborsLevels : string;
  WithNeighborsDirection : string }.
End GetComponentsParams.

Module Component.
(** The field [State] of the Go struct is assigned by no handler and stays
    nil; it is left out. *)
Record t := mk {
  ID : Z;
  Name : string;
  Type_ : string;
  Identifiers : list string;
  Tags : list string;
  Relations : list Z }.
End Component.

Section GetComponents.
Import GetComponentsParams.

(** [fmt.Sprintf] of [field = "%s"]. *)
Definition clause (field value : string) : string :=
  field +:+ " = " +:+ dquote +:+ value +:+ dquote.

(** The slice [queryParts] after the five conditional appends. *)
Definition queryParts (params : t) : list string :=
  let parts := [] in
  let parts := if is_empty (NamePattern params) then parts
               else parts ++ [clause "name" (NamePattern params)] in
  let parts := if is_empty (Type_ params) then parts
               else parts ++ [clause "type" (Type_ params)] in
  let parts := if is_empty (Layer params) then parts
               else parts ++ [clause "layer" (Layer params)] in
  let parts := if is_empty (Domain params) then parts
               else parts ++ [clause "domain" (Domain params)] in
  let parts := if is_empty (HealthState params) then parts
               else parts ++ [clause "healthstate" (HealthState params)] in
  parts.

(** The variable [query] once the basic filters are combined, before the
    neighbour expansion. *)
Definition baseQuery (params : t) : string :=
  let parts := queryParts params in
  if (0 <? length parts)%nat then strings_Join parts " AND " else "".

(** The map [validDirections], used as a set. *)
Definition validDirections : gset string := {[ "up"; "down"; "both" ]}.

Definition neighborsQuery (query levels direction : string) : string :=
  "withNeighborsOf(components = (" +:+ query +:+ "), levels = " +:+ dquote
    +:+ levels +:+ dquote +:+ ", direction = " +:+ dquote +:+ direction
    +:+ dquote +:+ ")".

(** The part of [GetComponents] that computes [query], up to and including
    the final emptiness check. *)
Definition buildQuery (params : t) : result string :=
  let with_filters : result string :=
    if is_empty (Query params) then
      let query := baseQuery params in
      if WithNeighbors params then
        if is_empty query then
          Err "with_neighbors requires at least one filter to define the components"
        else
          let levels := WithNeighborsLevels params in
          let levels := if is_empty levels then "1" else levels in
          let direction := WithNeighborsDirection params in
          let direction := if is_empty direction then "both" else direction in
          if negb (bool_decide (direction ∈ validDirections)) then
            Err ("invalid with_neighbors_direction '" +:+ direction
                   +:+ "'. Must be 'up', 'down', or 'both'")
          else
            Ok (query +:+ " OR " +:+ neighborsQuery query levels direction)
      else Ok query
    else Ok (Query params) in
  match with_filters with
  | Err msg => Err msg
  | Ok query =>
      if is_empty query then
        Err "either 'query' or at least one filter (name_pattern, type, layer, domain, healthstate) must be provided"
      else Ok query
  end.

Definition simplifyViewComponents (components : list ViewComponent.t)
  : list Component.t :=
  map (fun c => Component.mk (ViewComponent.ID c) (ViewComponent.Name c)
                  (ViewComponent.InternalType c) (ViewComponent.Identifiers c)
                  (ViewComponent.Tags c) (ViewComponent.OutgoingRelations c))
      components.

Definition summaryFilters (params : t) : list string :=
  let filters := [] in
  let filters := if is_empty (NamePattern params) then filters
                 else filters ++ ["name: " +:+ NamePattern params] in
  let filters := if is_empty (Type_ params) then filters
                 else filters ++ ["type: " +:+ Type_ params] in
  let filters := if is_empty (Layer params) then filters
                 else filters ++ ["layer: " +:+ Layer params] in
  let filters := if is_empty (Domain params) then filters
                 else filters ++ ["domain: " +:+ Domain params] in
  let filters := if is_empty (HealthState params) then filters
                 else filters ++ ["healthstate: " +:+ HealthState params] in
  filters.

Definition identifiersStr (ids : list string) : string :=
  if (0 <? length ids)%nat then
    if (2 <? length ids)%nat then strings_Join (take 2 ids) ", " +:+ "..."
    else strings_Join ids ", "
  else "-".

Definition componentRow (c : Component.t) : string :=
  "| " +:+ Component.Name c +:+ " | " +:+ Component.Type_ c +:+ " | "
    +:+ fmt_d (Component.ID c) +:+ " | "
    +:+ identifiersStr (Component.Identifiers c) +:+ " |" +:+ nl.

Definition formatComponentsTable (components : list Component.t)
    (params : t) (query : string) : string :=
  if (length components =? 0)%nat then
    "No components found for query: " +:+ query
  else
    let sb := "Found " +:+ fmt_d (Z.of_nat (length components)) +:+ " component(s)" in
    let sb :=
      if negb (is_empty (Query params)) then sb +:+ " for query: " +:+ Query params
      else
        let filters := summaryFilters params in
        if (0 <? length filters)%nat
        then sb +:+ " (" +:+ strings_Join filters ", " +:+ ")"
        else sb in
    let sb := sb +:+ ":" +:+ nl +:+ nl in
    let sb := sb +:+ "| Component Name | Type | ID | Identifiers |" +:+ nl in
    let sb := sb +:+ "|---|---|---|---|" +:+ nl in
    foldl (fun sb c => sb +:+ componentRow c) sb components.

Definition GetComponents (params : t) : prog (result string) :=
  match buildQuery params with
  | Err msg => Ret (Err msg)
  | Ok query =>
      r <- perform (SnapShotTopologyQuery query) ;;
      match r with
      | Err e => Ret (Err ("failed to query topology (STQL: " +:+ query +:+ "): " +:+ e))
      | Ok components =>
          let simplified := simplifyViewComponents components in
          Ret (Ok (formatComponentsTable simplified params query))
      end
  end.
End GetComponents.

(** ** [getMonitors] *)

Module GetMonitorsParams.
Record t := mk { State : string }.
End GetMonitorsParams.

Module MonitorRow.
Record t := mk {
  Name : string;
  Description : string;
  AffectedCount : Z;
  AffectedComponent : string }.
End MonitorRow.

Section GetMonitors.
Import GetMonitorsParams.

(** The map [validStates], used as a set. *)
Definition validStates : gset string :=
  {[ "CRITICAL"; "DEVIATING"; "UNKNOWN" ]}.

(** The [switch] on [state]; [count] keeps its zero value when no case
    applies. *)
Definition stateCount (state : string) (metrics : RuntimeMetrics.t) : Z :=
  if decide (state = "CRITICAL") then RuntimeMetrics.CriticalCount metrics
  else if decide (state = "DEVIATING") then RuntimeMetrics.DeviatingCount metrics
  else if decide (state = "UNKNOWN") then RuntimeMetrics.UnknownCount metrics
  else 0%Z.

Definition maxComponents : nat := 5.

Definition componentStr (checkState : CheckState.t) : string :=
  let componentRef := "ID:" +:+ fmt_d (CheckState.TopologyElementId checkState) in
  let componentRef :=
    if String.eqb (CheckState.TopologyElementIdType checkState) "identifier"
    then "URN:" +:+ fmt_d (CheckState.TopologyElementId checkState)
    else componentRef in
  CheckState.Name checkState +:+ " (" +:+ componentRef +:+ ")".

Definition detailRow (monitor : Monitor.t) (count : Z)
    (checkState : CheckState.t) : MonitorRow.t :=
  MonitorRow.mk (Monitor.Name monitor) (Monitor.Description monitor) count
    (componentStr checkState).

(** The loop over [checkStates.States], which stops once [maxComponents]
    rows are written. *)
Fixpoint detailRows (monitor : Monitor.t) (count : Z)
    (states : list CheckState.t) (componentsShown : nat) : list MonitorRow.t :=
  match states with
  | [] => []
  | checkState :: states' =>
      if (maxComponents <=? componentsShown)%nat then []
      else detailRow monitor count checkState
             :: detailRows monitor count states' (S componentsShown)
  end.

Definition fallbackRow (monitor : Monitor.t) (count : Z) : MonitorRow.t :=
  MonitorRow.mk (Monitor.Name monitor) (Monitor.Description monitor) count "-".

Definition moreRow (monitor : Monitor.t) (count : Z) (n : nat) : MonitorRow.t :=
  MonitorRow.mk (Monitor.Name monitor) "-" count
    ("... and " +:+ fmt_d (Z.of_nat n - Z.of_nat maxComponents) +:+ " more").

(** The rows one monitor with a non-zero counter adds, given the answer of
    the check-state lookup. *)
Definition monitorRows (monitor : Monitor.t) (count : Z)
    (resp : result CheckStates.t) : list MonitorRow.t :=
  match resp with
  | Err _ => [fallbackRow monitor count]
  | Ok checkStates =>
      let states := CheckStates.States checkStates in
      if (length states =? 0)%nat then [fallbackRow monitor count]
      else
        detailRows monitor count states 0
          ++ (if (maxComponents <? length states)%nat
              then [moreRow monitor count (length states)] else [])
  end.

(** The loop over [overview.Monitors]; [rows] is the slice built so far. *)
Fixpoint collectRows (state : string) (monitors : list MonitorOverview.t)
    (rows : list MonitorRow.t) : prog (list MonitorRow.t) :=
  match monitors with
  | [] => Ret rows
  | monitorOverview :: monitors' =>
      let monitor := MonitorOverview.Monitor monitorOverview in
      let metrics := MonitorOverview.RuntimeMetrics monitorOverview in
      let count := stateCount state metrics in
      if (count =? 0)%Z then collectRows state monitors' rows
      else
        Do (GetMonitorCheckStates (fmt_d (Monitor.Id monitor)) state 10 0)
           (fun resp =>
              collectRows state monitors' (rows ++ monitorRows monitor count resp))
  end.

(** The loop that counts the monitors of the row set through the map
    [seenMonitors]. *)
Definition countStep (acc : Z * gset string) (row : MonitorRow.t)
  : Z * gset string :=
  let '(monitorCount, seenMonitors) := acc in
  if decide (MonitorRow.Name row ∈ seenMonitors) then acc
  else ((monitorCount + 1)%Z, {[ MonitorRow.Name row ]} ∪ seenMonitors).

Definition monitorCount (rows : list MonitorRow.t) : Z :=
  (foldl countStep (0%Z, ∅) rows).1.

Definition renderRow (row : MonitorRow.t) : string :=
  let desc := MonitorRow.Description row in
  let desc := if is_empty desc then "-" else desc in
  let desc := if (50 <? String.length desc)%nat
              then String.substring 0 47 desc +:+ "..." else desc in
  "| " +:+ MonitorRow.Name row +:+ " | " +:+ desc +:+ " | "
    +:+ fmt_d (MonitorRow.AffectedCount row) +:+ " | "
    +:+ MonitorRow.AffectedComponent row +:+ " |" +:+ nl.

Definition summaryLine (n : Z) (state : string) : string :=
  "Found " +:+ fmt_d n +:+ " monitor(s) in " +:+ state +:+ " state:" +:+ nl +:+ nl.

Definition monitorsHeader : string :=
  "| Monitor Name | Description | Affected Count | Affected Component |" +:+ nl
    +:+ "|---|---|---|---|" +:+ nl.

(** The output built from the collected rows. *)
Definition renderMonitors (state : string) (rows : list MonitorRow.t) : string :=
  if (length rows =? 0)%nat then
    "No monitors in " +:+ state +:+ " state found."
  else
    let sb := summaryLine (monitorCount rows) state in
    let sb := sb +:+ monitorsHeader in
    foldl (fun sb row => sb +:+ renderRow row) sb rows.

Definition effectiveState (params : t) : string :=
  if is_empty (State params) then "CRITICAL" else State params.

Definition GetMonitors (params : t) : prog (result string) :=
  let state := effectiveState params in
  if negb (bool_decide (state ∈ validStates)) then
    Ret (Err ("invalid state '" +:+ state
                +:+ "'. Allowed values: CRITICAL, DEVIATING, UNKNOWN"))
  else
    r <- perform GetMonitorsOverview ;;
    match r with
    | Err e => Ret (Err ("failed to get monitors overview: " +:+ e))
    | Ok overview =>
        rows <- collectRows state (MonitorsOverview.Monitors overview) [] ;;
        Ret (Ok (renderMonitors state rows))
    end.
End GetMonitors.

(** ** [listMetrics] and [getMetrics] *)

(** What the handlers use of Go's standard library and is not modelled
    further: the regular expressions of [regexp], [time.ParseDuration] (its
    result an [int64] count of nanoseconds), the layout [time.RFC3339] of a
    Unix time in the local zone, and the verb [%.4f] on a [float64]. *)
Class GoLib := {
  Regexp : Type;
  regexp_Compile : string -> result Regexp;
  MatchString : Regexp -> string -> bool;
  time_ParseDuration : string -> option Z;
  format_RFC3339 : Z -> string;
  fmt_4f : float -> string }.

Module ListMetricsParams.
Record t := mk { SearchPattern : string }.
End ListMetricsParams.

Module QueryRangeMetricParams.
Record t := mk {
  Query : string;
  Start : string;
  End_ : string;
  Step : string }.
End QueryRangeMetricParams.

Section Metrics.
Context {golib : GoLib}.

Definition maxMetrics : nat := 50.

(** The line written for one metric, given the answer of the label lookup. *)
Definition metricLine (metricName : string) (resp : result (list string))
  : string :=
  match resp with
  | Err _ => "| " +:+ metricName +:+ " | - |" +:+ nl
  | Ok labels =>
      let labelsStr :=
        if (0 <? length labels)%nat then strings_Join labels ", " else "-" in
      "| " +:+ metricName +:+ " | " +:+ labelsStr +:+ " |" +:+ nl
  end.

(** The loop over [metricsToProcess]; [sb] is the text written so far. *)
Fixpoint writeMetricLines (metricsToProcess : list string) (start end_ : Time)
    (sb : string) : prog string :=
  match metricsToProcess with
  | [] => Ret sb
  | metricName :: rest =>
      Do (GetMetricLabels metricName start end_)
         (fun resp =>
            writeMetricLines rest start end_ (sb +:+ metricLine metricName resp))
  end.

Definition ListMetrics (params : ListMetricsParams.t) : prog (result string) :=
  let pattern := ListMetricsParams.SearchPattern params in
  if is_empty pattern then Ret (Err "search_pattern is required")
  else
    end_ <- perform time_Now ;;
    let start := (end_ + (-1) * time_Hour)%Z in
    r <- perform (ClientListMetrics start end_) ;;
    match r with
    | Err e => Ret (Err ("failed to list metrics: " +:+ e))
    | Ok metrics =>
        match regexp_Compile pattern with
        | Err e => Ret (Err ("invalid regex pattern: " +:+ e))
        | Ok re =>
            let filteredMetrics := List.filter (MatchString re) metrics in
            if (length filteredMetrics =? 0)%nat then
              Ret (Ok ("No metrics found matching '" +:+ pattern +:+ "'."))
            else
              let truncated := (maxMetrics <? length filteredMetrics)%nat in
              let metricsToProcess :=
                if truncated then take maxMetrics filteredMetrics
                else filteredMetrics in
              let sb := "Found " +:+ fmt_d (Z.of_nat (length filteredMetrics))
                          +:+ " metrics matching '" +:+ pattern +:+ "'" in
              let sb :=
                if truncated
                then sb +:+ " (showing first " +:+ fmt_d (Z.of_nat maxMetrics) +:+ ")"
                else sb in
              let sb := sb +:+ ":" +:+ nl +:+ nl in
              let sb := sb +:+ "| Metric Name | Labels |" +:+ nl in
              let sb := sb +:+ "|---|---|" +:+ nl in
              sb <- writeMetricLines metricsToProcess start end_ sb ;;
              let sb :=
                if truncated
                then sb +:+ nl +:+ "_Note: Showing first "
                       +:+ fmt_d (Z.of_nat maxMetrics) +:+ " of "
                       +:+ fmt_d (Z.of_nat (length filteredMetrics))
                       +:+ " metrics. Use a more specific search pattern to narrow results._"
                       +:+ nl
                else sb in
              Ret (Ok sb)
        end
    end.

(** The keys one series adds to the map [labelKeys]. *)
Definition addLabelKeys (labelKeys : gset string) (res : MetricResult.t)
  : gset string :=
  map_fold (fun k _ acc => if decide (k = "__name__") then acc else {[ k ]} ∪ acc)
           labelKeys (MetricResult.Labels res).

Definition collectLabelKeys (metricsResult : list MetricResult.t) : gset string :=
  foldl addLabelKeys ∅ metricsResult.

(** [sort.Strings] on the keys of [labelKeys]. *)
Definition sortedKeys (metricsResult : list MetricResult.t) : list string :=
  merge_sort String.le (elements (collectLabelKeys metricsResult)).

(** The value read at [res.Labels[k]], with the placeholder for the empty
    string. *)
Definition labelValue (res : MetricResult.t) (k : string) : string :=
  let val := default "" (MetricResult.Labels res !! k) in
  if is_empty val then "-" else val.

Definition writeLabelCells (res : MetricResult.t) (keys : list string)
    (sb : string) : string :=
  foldl (fun sb k => sb +:+ " " +:+ labelValue res k +:+ " |") sb keys.

Definition writePoint (res : MetricResult.t) (keys : list string)
    (sb : string) (p : Point.t) : string :=
  let ts := format_RFC3339 (Point.Timestamp p) in
  let sb := sb +:+ "| " +:+ ts +:+ " | " +:+ fmt_4f (Point.Value p) +:+ " |" in
  let sb := writeLabelCells res keys sb in
  sb +:+ nl.

Definition writeSeries (keys : list string) (sb : string)
    (res : MetricResult.t) : string :=
  foldl (writePoint res keys) sb (MetricResult.Points res).

Definition formatMetrics (metricsResult : list MetricResult.t)
    (queryName : string) : string :=
  if (length metricsResult =? 0)%nat then "No data found."
  else
    let keys := sortedKeys metricsResult in
    let sb := "| Timestamp | Value |" in
    let sb := foldl (fun sb k => sb +:+ " " +:+ k +:+ " |") sb keys in
    let sb := sb +:+ nl in
    let sb := sb +:+ "|---|---|" in
    let sb := foldl (fun sb _ => sb +:+ "---|") sb keys in
    let sb := sb +:+ nl in
    foldl (writeSeries keys) sb metricsResult.

Definition parseTime (s : string) : prog (result Time) :=
  if String.eqb s "now" then
    now <- perform time_Now ;; Ret (Ok now)
  else
    match time_ParseDuration s with
    | Some d => now <- perform time_Now ;; Ret (Ok (now + neg_Duration d)%Z)
    | None =>
        Ret (Err ("invalid time format: " +:+ s
                    +:+ " (expected 'now' or duration like '1h')"))
    end.

Definition QueryRangeMetric (params : QueryRangeMetricParams.t)
  : prog (result string) :=
  r <- parseTime (QueryRangeMetricParams.Start params) ;;
  match r with
  | Err e => Ret (Err ("failed to parse start time: " +:+ e))
  | Ok start =>
      r <- parseTime (QueryRangeMetricParams.End_ params) ;;
      match r with
      | Err e => Ret (Err ("failed to parse end time: " +:+ e))
      | Ok end_ =>
          let step := QueryRangeMetricParams.Step params in
          let step := if is_empty step then "1m" else step in
          let timeout := "30s" in
          r <- perform (ClientQueryRangeMetric
                          (QueryRangeMetricParams.Query params) start end_
                          step timeout) ;;
          match r with
          | Err e => Ret (Err ("failed to query range metri c: " +:+ e))
          | Ok result =>
              Ret (Ok (formatMetrics result (QueryRangeMetricParams.Query params)))
          end
      end
  end.
End Metrics.

(** * The specification's own formulations

    Definitions that follow the words of the specification, to be compared
    with the handlers above. *)

Section SpecGetComponents.
Import GetComponentsParams.

(** The named filters in the order of the specification, each with the
    field it constrains. *)
Definition namedFilters (params : t) : list (string * string) :=
  [ ("name", NamePattern params); ("type", Type_ params);
    ("layer", Layer params); ("domain", Domain params);
    ("healthstate", HealthState params) ].

(** The conjunction the specification describes: one clause per non-empty
    named filter, joined with AND. *)
Definition andJoin (params : t) : string :=
  strings_Join
    (map (fun fv => clause fv.1 fv.2)
         (List.filter (fun fv => negb (is_empty fv.2)) (namedFilters params)))
    " AND ".

(** The rewrite rule of the specification for the neighbour expansion. *)
Definition rewrite_neighbors (base levels dir : string) : string :=
  base +:+ " OR withNeighborsOf(components = (" +:+ base +:+ "), levels = "
    +:+ dquote +:+ levels +:+ dquote +:+ ", direction = " +:+ dquote
    +:+ dir +:+ dquote +:+ ")".
End SpecGetComponents.

(** The answers a handler gives to a list of successive requests, and the
    state it is left in. *)
Fixpoint ask {W R} (h : handler W) (cs : list (call R)) (w : W) : list R * W :=
  match cs with
  | [] => ([], w)
  | c :: cs' =>
      let '(r, w') := h R c w in
      let '(rs, w'') := ask h cs' w' in
      (r :: rs, w'')
  end.

Definition answers {W R} (h : handler W) (cs : list (call R)) (w : W) : list R :=
  (ask h cs w).1.

(** The number of distinct strings of a list. *)
Definition distinct (l : list string) : nat := length (remove_dups l).

Section SpecGetMonitors.
(** The monitors of the overview that are not skipped: those whose counter
    for the state is not zero. *)
Definition qualifying (state : string) (monitors : list MonitorOverview.t)
  : list MonitorOverview.t :=
  List.filter
    (fun mo => negb (stateCount state (MonitorOverview.RuntimeMetrics mo) =? 0)%Z)
    monitors.

(** The check-state lookup made for a monitor. *)
Definition lookupCall (state : string) (mo : MonitorOverview.t)
  : call (result CheckStates.t) :=
  GetMonitorCheckStates (fmt_d (Monitor.Id (MonitorOverview.Monitor mo))) state 10 0.

(** The rows of one monitor, given the answer to its lookup. *)
Definition monitorBlock (state : string) (mo : MonitorOverview.t)
    (resp : result CheckStates.t) : list MonitorRow.t :=
  monitorRows (MonitorOverview.Monitor mo)
    (stateCount state (MonitorOverview.RuntimeMetrics mo)) resp.

Definition monitorName (mo : MonitorOverview.t) : string :=
  Monitor.Name (MonitorOverview.Monitor mo).

(** The monitors with a strictly positive counter for the state. *)
Definition positiveMonitors (state : string) (monitors : list MonitorOverview.t)
  : list MonitorOverview.t :=
  List.filter
    (fun mo => (0 <? stateCount state (MonitorOverview.RuntimeMetrics mo))%Z)
    monitors.

(** The rendered table: the summary line, the header and one line per row. *)
Definition monitorsTable (n : Z) (state : string) (rows : list MonitorRow.t)
  : string :=
  summaryLine n state +:+ monitorsHeader +:+ String.concat "" (map renderRow rows).
End SpecGetMonitors.

Section SpecMetrics.
Context {golib : GoLib}.

(** The lines [ListMetrics] writes before and after the metric lines, for
    the names that match the pattern. *)
Definition metricsHeader (pattern : string) (filteredMetrics : list string)
  : string :=
  "Found " +:+ fmt_d (Z.of_nat (length filteredMetrics))
    +:+ " metrics matching '" +:+ pattern +:+ "'"
    +:+ (if (maxMetrics <? length filteredMetrics)%nat
         then " (showing first " +:+ fmt_d (Z.of_nat maxMetrics) +:+ ")" else "")
    +:+ ":" +:+ nl +:+ nl
    +:+ "| Metric Name | Labels |" +:+ nl
    +:+ "|---|---|" +:+ nl.

Definition metricsFooter (filteredMetrics : list string) : string :=
  if (maxMetrics <? length filteredMetrics)%nat
  then nl +:+ "_Note: Showing first " +:+ fmt_d (Z.of_nat maxMetrics) +:+ " of "
         +:+ fmt_d (Z.of_nat (length filteredMetrics))
         +:+ " metrics. Use a more specific search pattern to narrow results._"
         +:+ nl
  else "".

(** The label lookup made for a metric name. *)
Definition labelsCall (start end_ : Time) (metricName : string)
  : call (result (list string)) :=
  GetMetricLabels metricName start end_.

(** The lines of the metric table for a column list. *)
Definition headerLine (keys : list string) : string :=
  "| Timestamp | Value |"
    +:+ String.concat "" (map (fun k => " " +:+ k +:+ " |") keys) +:+ nl.

Definition separatorLine (keys : list string) : string :=
  "|---|---|" +:+ String.concat "" (map (fun _ => "---|") keys) +:+ nl.

Definition dataRow (keys : list string) (res : MetricResult.t) (p : Point.t)
  : string :=
  "| " +:+ format_RFC3339 (Point.Timestamp p) +:+ " | "
    +:+ fmt_4f (Point.Value p) +:+ " |"
    +:+ String.concat "" (map (fun k => " " +:+ labelValue res k +:+ " |") keys)
    +:+ nl.

(** The data rows in the order of the series, and of the samples within a
    series. *)
Definition dataRows (keys : list string) (metricsResult : list MetricResult.t)
  : list string :=
  flat_map (fun res => map (dataRow keys res) (MetricResult.Points res))
           metricsResult.

(** A time argument [parseTime] accepts. *)
Definition parses (s : string) : Prop :=
  s = "now" \/ is_Some (time_ParseDuration s).
End SpecMetrics.

(** * Sample inputs

    A toy instance of the library interface, a backend that answers every
    request, and parameter records; the statements below are tried on them. *)

Module Sample.
(** A regular expression is kept as its source text and matches the names
    it is a prefix of; only the pattern [(] is rejected, as Go's parser
    rejects it for its missing closing parenthesis. *)
#[export] Instance golib : GoLib := {|
  Regexp := string;
  regexp_Compile s :=
    if String.eqb s "(" then Err "error parsing regexp: missing closing ): `(`"
    else Ok s;
  MatchString re s := String.prefix re s;
  time_ParseDuration s :=
    if String.eqb s "1h" then Some time_Hour else None;
  format_RFC3339 z := "T" +:+ pretty z;
  fmt_4f f := if PrimFloat.eqb f 1%float then "1.0000" else "2.0000" |}.

Definition checkState (n : Z) : CheckState.t :=
  CheckState.mk n (if (n =? 2)%Z then "identifier" else "id") ("c" +:+ pretty n).

Definition overview : MonitorsOverview.t :=
  MonitorsOverview.mk
    [ MonitorOverview.mk (Monitor.mk 1 "cpu" "") (RuntimeMetrics.mk 0 7 0);
      MonitorOverview.mk (Monitor.mk 2 "disk" "d") (RuntimeMetrics.mk 1 0 0);
      MonitorOverview.mk (Monitor.mk 3 "mem" "m") (RuntimeMetrics.mk 1 0 0) ].

(** Two monitors that share a name, both with a critical component. *)
Definition twins : MonitorsOverview.t :=
  MonitorsOverview.mk
    [ MonitorOverview.mk (Monitor.mk 4 "cpu" "node a") (RuntimeMetrics.mk 1 0 0);
      MonitorOverview.mk (Monitor.mk 5 "cpu" "node b") (RuntimeMetrics.mk 2 0 0) ].

Definition series1 : MetricResult.t :=
  MetricResult.mk
    (<["pod" := "a"]> (<["__name__" := "up"]> (<["zone" := ""]> ∅)))
    [Point.mk 10 1%float; Point.mk 20 2%float].

Definition series2 : MetricResult.t :=
  MetricResult.mk (<["app" := "x"]> (<["Pod" := "b"]> ∅)) [Point.mk 5 1%float].

(** The state counts the requests answered so far and is the clock. *)
Definition backend_with (ov : MonitorsOverview.t) : handler nat := fun R c w =>
  match c in call R return R * nat with
  | SnapShotTopologyQuery q =>
      (if String.prefix "name" q
       then Ok [ViewComponent.mk 12 "redis-0" "pod" ["urn:a"; "urn:b"; "urn:c"] [] []]
       else Ok [], S w)
  | GetMonitorsOverview => (Ok ov, S w)
  | GetMonitorCheckStates monitorId _ _ _ =>
      (if String.eqb monitorId "1"
       then Ok (CheckStates.mk (map checkState [1; 2; 3; 4; 5; 6; 7; 8]%Z))
       else if String.eqb monitorId "5" then Ok (CheckStates.mk [])
       else Err "lookup failed", S w)
  | ClientListMetrics _ _ => (Ok ["cpu_a"; "mem"; "cpu_b"], S w)
  | GetMetricLabels metricName _ _ =>
      (if String.eqb metricName "cpu_a" then Ok ["x"; "y"] else Err "no labels", S w)
  | ClientQueryRangeMetric q _ _ _ _ =>
      (if String.eqb q "up" then Ok [series1; series2] else Ok [], S w)
  | time_Now => (Z.of_nat w, S w)
  end.

Definition backend : handler nat := backend_with overview.
Definition twins_backend : handler nat := backend_with twins.

Definition cpu : MonitorOverview.t :=
  MonitorOverview.mk (Monitor.mk 1 "cpu" "") (RuntimeMetrics.mk 0 7 0).

Definition eight : CheckStates.t :=
  CheckStates.mk (map checkState [1; 2; 3; 4; 5; 6; 7; 8]%Z).

Definition redis_down : GetComponentsParams.t :=
  GetComponentsParams.mk "" "redis*" "" "" "" "" true "" "down".

Definition raw_and_filters : GetComponentsParams.t :=
  GetComponentsParams.mk "layer = x" "redis*" "pod" "" "" "" true "2" "sideways".

Definition pods_critical : GetComponentsParams.t :=
  GetComponentsParams.mk "" "" "pod" "" "" "CRITICAL" false "" "".

Definition pods_sideways : GetComponentsParams.t :=
  GetComponentsParams.mk "" "" "pod" "" "" "" true "" "sideways".
End Sample.

(** * The trace listing

    [ListTraces] looks a component up among the OpenTelemetry services of the
    topology, reads its service name and namespace off its tags and asks the
    backend for the traces of the last hour. *)

(** [strings.Cut] with a separator of one byte: the text before the first
    occurrence of the separator, the text after it, and whether it occurs;
    the whole text and the empty text when it does not. *)
Fixpoint strings_Cut (s : string) (sep : Ascii.ascii) : string * string * bool :=
  match s with
  | EmptyString => ("", "", false)
  | String a s' =>
      if Ascii.eqb a sep then ("", s', true)
      else
        let '(before, after, found) := strings_Cut s' sep in
        (String a before, after, found)
  end.

Definition colon : Ascii.ascii := Ascii.ascii_of_nat 58.

Definition splitTag (input : string) : string * string :=
  let '(key, value, _) := strings_Cut input colon in (key, value).

Module ListTracesParams.
Record t := mk { ComponentID : Z }.
End ListTracesParams.

Module TracesRequest.
(** Modelled from the spec: the request of the client's trace query, of the
    client package, with the fields [ListTraces] sets: the time window, the
    page, and the service names and namespaces of the primary span filter. *)
Record t := mk {
  Start : Time;
  End_ : Time;
  Page : Z;
  PageSize : Z;
  ServiceName : list string;
  ServiceNamespace : list string }.
End TracesRequest.

(** The answer of the trace query, which the handler only passes to
    [json.Marshal]. *)
Class TraceLib := {
  TracesResult : Type;
  json_Marshal : TracesResult -> result string }.

Section ListTraces.
Context {tracelib : TraceLib}.

(** Modelled from the spec: the requests of [ListTraces], which are those of
    the other handlers and the client's [QueryTraces]. *)
Inductive tcall : Type -> Type :=
| Core {R : Type} (c : call R) : tcall R
| ClientQueryTraces (req : TracesRequest.t) : tcall (result TracesResult).

Inductive tprog (A : Type) : Type :=
| TRet (a : A)
| TDo {R : Type} (c : tcall R) (k : R -> tprog A).

Inductive trequest : Type :=
| TReq {R : Type} (c : tcall R).

Definition thandler (W : Type) : Type := forall R, tcall R -> W -> R * W.

Fixpoint trun {W A} (h : thandler W) (m : tprog A) (w : W)
  : A * W * list trequest :=
  match m with
  | TRet _ a => (a, w, [])
  | TDo _ c k =>
      let '(r, w') := h _ c w in
      let '(a, w'', tr) := trun h (k r) w' in
      (a, w'', TReq c :: tr)
  end.

(** The loop over [components], which stops at the first component with the
    identifier; [tags] stays empty when there is none. *)
Fixpoint findTags (components : list ViewComponent.t) (componentID : Z)
  : list string :=
  match components with
  | [] => []
  | c :: components' =>
      if (ViewComponent.ID c =? componentID)%Z then ViewComponent.Tags c
      else findTags components' componentID
  end.

(** One turn of the loop over [tags]. *)
Definition tagStep (acc : string * string) (tag : string) : string * string :=
  let '(name, namespace) := acc in
  let '(key, value) := splitTag tag in
  let name := if String.eqb key "service.name" then value else name in
  let namespace := if String.eqb key "service.namespace" then value else namespace in
  (name, namespace).

Definition serviceOf (tags : list string) : string * string :=
  foldl tagStep ("", "") tags.

Definition tracesQuery : string :=
  "(label IN (" +:+ dquote +:+ "stackpack:open-telemetry" +:+ dquote
    +:+ ") AND type IN (" +:+ dquote +:+ "otel service" +:+ dquote +:+ "))".

(** The error of the topology query is not looked at; the client is taken to
    return no component along with an error. *)
Definition ListTraces (params : ListTracesParams.t) : tprog (result string) :=
  TDo _ (Core (SnapShotTopologyQuery tracesQuery)) (fun r =>
    let components := match r with Ok cs => cs | Err _ => [] end in
    let tags := findTags components (ListTracesParams.ComponentID params) in
    if (length tags =? 0)%nat then TRet _ (Err "Component not found")
    else
      let '(name, namespace) := serviceOf tags in
      if is_empty name || is_empty namespace then
        TRet _ (Err "Component has no service name and namespace defined")
      else
        TDo _ (Core time_Now) (fun now =>
          TDo _ (ClientQueryTraces
                   (TracesRequest.mk (now + - time_Hour)%Z now 0 100
                      [name] [namespace]))
              (fun r =>
                 match r with
                 | Err e => TRet _ (Err e)
                 | Ok result =>
                     match json_Marshal result with
                     | Err e => TRet _ (Err e)
                     | Ok resultJSON => TRet _ (Ok resultJSON)
                     end
                 end))).
End ListTraces.

(** * Further formulations *)

Section SpecMore.
Context {golib : GoLib}.

(** The first line of the component table. *)
Definition componentsSummary (params : GetComponentsParams.t) (n : nat) : string :=
  "Found " +:+ fmt_d (Z.of_nat n) +:+ " component(s)"
    +:+ (if decide (GetComponentsParams.Query params = "") then
           if decide (summaryFilters params = []) then ""
           else " (" +:+ strings_Join (summaryFilters params) ", " +:+ ")"
         else " for query: " +:+ GetComponentsParams.Query params)
    +:+ ":" +:+ nl +:+ nl.

Definition componentsHeader : string :=
  "| Component Name | Type | ID | Identifiers |" +:+ nl
    +:+ "|---|---|---|---|" +:+ nl.

(** The description cell of a monitor row. *)
Definition descriptionCell (desc : string) : string :=
  if decide (desc = "") then "-"
  else if decide (50 < String.length desc)%nat
       then String.substring 0 47 desc +:+ "..."
       else desc.

(** The time [parseTime] gives for an argument it accepts, when the clock
    reads [now]: the reading itself for [now], and the reading moved by the
    64-bit opposite of the duration otherwise. *)
Definition timeOf (s : string) (now : Time) : Time :=
  if decide (s = "now") then now
  else match time_ParseDuration s with
       | Some d => (now + neg_Duration d)%Z
       | None => now
       end.

(** The step sent with a range query. *)
Definition stepOf (params : QueryRangeMetricParams.t) : string :=
  if decide (QueryRangeMetricParams.Step params = "") then "1m"
  else QueryRangeMetricParams.Step params.

(** The number of samples of a sequence of series. *)
Definition sampleCount (metricsResult : list MetricResult.t) : nat :=
  sum_list (map (fun res => length (MetricResult.Points res)) metricsResult).

(** The number of line feeds of a text: its number of lines, when every line
    ends with one. *)
Fixpoint countLines (s : string) : nat :=
  match s with
  | EmptyString => 0
  | String a s' =>
      (if Ascii.eqb a (Ascii.ascii_of_nat 10) then 1 else 0) + countLines s'
  end.
End SpecMore.

(** ** More sample inputs *)

Module SampleTraces.
(** The answer of the trace query is the number of spans, marshalled as a
    decimal. *)
#[export] Instance tracelib : TraceLib := {|
  TracesResult := Z;
  json_Marshal n := Ok (pretty n) |}.

Definition services : list ViewComponent.t :=
  [ ViewComponent.mk 7 "cart" "otel service" []
      ["stackpack:open-telemetry"; "service.name:cart"; "service.namespace:shop"] [];
    ViewComponent.mk 8 "mail" "otel service" [] ["service.name:mail"] [];
    ViewComponent.mk 7 "cart-copy" "otel service" [] ["service.name:other"] [] ].

Definition backend : thandler nat := fun R c w =>
  match c in tcall R return R * nat with
  | Core c' =>
      match c' in call R' return R' * nat with
      | SnapShotTopologyQuery _ => (Ok services, S w)
      | GetMonitorsOverview => (Err "unused", S w)
      | GetMonitorCheckStates _ _ _ _ => (Err "unused", S w)
      | ClientListMetrics _ _ => (Err "unused", S w)
      | GetMetricLabels _ _ _ => (Err "unused", S w)
      | ClientQueryRangeMetric _ _ _ _ _ => (Err "unused", S w)
      | time_Now => (Z.of_nat w, S w)
      end
  | ClientQueryTraces req =>
      (Ok (Z.of_nat (length (TracesRequest.ServiceName req))), S w)
  end.

(** The same backend with the topology out of reach. *)
Definition down_backend : thandler nat := fun R c w =>
  match c in tcall R return R * nat with
  | Core c' =>
      match c' in call R' return R' * nat with
      | SnapShotTopologyQuery _ => (Err "connection refused", S w)
      | c'' => backend _ (Core c'') w
      end
  | c' => backend _ c' w
  end.
End SampleTraces.

Module SampleMore.
Definition many_names : list string :=
  map (fun n => "m" +:+ pretty n) (seq 0 60).

(** A backend with sixty metric names, every label lookup failing. *)
Definition wide_backend : handler nat := fun R c w =>
  match c in call R return R * nat with
  | SnapShotTopologyQuery q => (Err "backend down", S w)
  | GetMonitorsOverview => (Err "backend down", S w)
  | GetMonitorCheckStates _ _ _ _ => (Err "backend down", S w)
  | ClientListMetrics _ _ => (Ok many_names, S w)
  | GetMetricLabels _ _ _ => (Err "no labels", S w)
  | ClientQueryRangeMetric q _ _ _ _ => (Err "backend down", S w)
  | time_Now => (Z.of_nat w, S w)
  end.

Definition long_description : string :=
  "0123456789012345678901234567890123456789012345678901234567890123456789".

Definition quoted : GetComponentsParams.t :=
  GetComponentsParams.mk ""
    ("redis" +:+ dquote +:+ " AND type = " +:+ dquote +:+ "pod")
    "" "" "" "" false "" "".

Definition plain : GetComponentsParams.t :=
  GetComponentsParams.mk "" "redis" "pod" "" "" "" false "" "".

Definition no_samples : MetricResult.t :=
  MetricResult.mk (<["host" := "a"]> ∅) [].

(** A library whose formatted times and numbers are fixed texts. *)
Definition plain_golib : GoLib := {|
  Regexp := string;
  regexp_Compile s := Ok s;
  MatchString re s := String.prefix re s;
  time_ParseDuration s := None;
  format_RFC3339 z := "t";
  fmt_4f f := "v" |}.

(** A series whose one label has the empty value, and the same series
    without the label. *)
Definition empty_zone : MetricResult.t :=
  MetricResult.mk (<["zone" := ""]> ∅) [Point.mk 10 1%float].

Definition no_zone : MetricResult.t :=
  MetricResult.mk (delete "zone" (<["zone" := ""]> ∅)) [Point.mk 10 1%float].
End SampleMore.

(** * Properties *)

(** ** Strings *)

Lemma is_empty_true (s : string) : is_empty s = true <-> s = "".
Proof. unfold is_empty. apply String.eqb_eq. Qed.

Lemma is_empty_false (s : string) : is_empty s = false <-> s <> "".
Proof. unfold is_empty. apply String.eqb_neq. Qed.

Lemma is_empty_decide {A} (s : string) (x y : A) :
  (if is_empty s then x else y) = if decide (s = "") then x else y.
Proof.
  destruct (decide (s = "")) as [->|Hne]; [done|].
  apply is_empty_false in Hne. by rewrite Hne.
Qed.

Lemma string_app_nil_l (s : string) : "" +:+ s = s.
Proof. reflexivity. Qed.

Lemma string_app_cons (a : Ascii.ascii) (s t : string) :
  String a s +:+ t = String a (s +:+ t).
Proof. reflexivity. Qed.

Lemma string_app_nil_r (s : string) : s +:+ "" = s.
Proof. induction s as [|a s IH]; [done|]. by rewrite string_app_cons, IH. Qed.

Lemma string_app_assoc (s t u : string) : (s +:+ t) +:+ u = s +:+ (t +:+ u).
Proof.
  induction s as [|a s IH]; [done|]. by rewrite !string_app_cons, IH.
Qed.

Lemma string_app_nonempty_l (s t : string) : s <> "" -> s +:+ t <> "".
Proof. destruct s; [done|]. by rewrite string_app_cons. Qed.

(** ** Running programs *)

Lemma run_bind {W A B} (h : handler W) (m : prog A) (f : A -> prog B) (w : W) :
  run h (bind m f) w =
  let '(a, w', tr) := run h m w in
  let '(b, w'', tr') := run h (f a) w' in
  (b, w'', tr ++ tr').
Proof.
  revert w. induction m as [a|R c k IH]; intros w; simpl.
  - by destruct (run h (f a) w) as [[b w''] tr'].
  - destruct (h R c w) as [r w']. rewrite IH.
    destruct (run h (k r) w') as [[a w''] tr].
    by destruct (run h (f a) w'') as [[b w3] tr'].
Qed.

Lemma run_Do {W A R} (h : handler W) (c : call R) (k : R -> prog A) (w : W) :
  run h (Do c k) w =
  let res := run h (k (h R c w).1) (h R c w).2 in
  (res.1.1, res.1.2, Req c :: res.2).
Proof.
  simpl. destruct (h R c w) as [r w']. simpl.
  by destruct (run h (k r) w') as [[a w''] tr].
Qed.

Lemma run_perform {W R} (h : handler W) (c : call R) (w : W) :
  run h (perform c) w = ((h R c w).1, (h R c w).2, [Req c]).
Proof. simpl. by destruct (h R c w). Qed.

(** ** The filter expression builder *)

Section GetComponentsFacts.
Import GetComponentsParams.

Lemma queryParts_filter (params : t) :
  queryParts params =
  map (fun fv => clause fv.1 fv.2)
      (List.filter (fun fv => negb (is_empty fv.2)) (namedFilters params)).
Proof.
  unfold queryParts, namedFilters. simpl.
  by destruct (is_empty (NamePattern params)), (is_empty (Type_ params)),
    (is_empty (Layer params)), (is_empty (Domain params)),
    (is_empty (HealthState params)).
Qed.

Lemma baseQuery_join (params : t) :
  baseQuery params = strings_Join (queryParts params) " AND ".
Proof. unfold baseQuery. by destruct (queryParts params). Qed.

Lemma clause_nonempty (field value : string) : field <> "" -> clause field value <> "".
Proof. intros Hf. unfold clause. by apply string_app_nonempty_l. Qed.

Lemma join_nonempty (sep x : string) (l : list string) :
  x <> "" -> String.concat sep (x :: l) <> "".
Proof.
  intros Hx. destruct l as [|y l]; simpl; [done|].
  by apply string_app_nonempty_l.
Qed.

Lemma baseQuery_empty_iff (params : t) :
  baseQuery params = "" <->
  NamePattern params = "" /\ Type_ params = "" /\ Layer params = ""
  /\ Domain params = "" /\ HealthState params = "".
Proof.
  rewrite baseQuery_join, queryParts_filter. unfold namedFilters, strings_Join.
  rewrite <- !is_empty_true. simpl.
  destruct (is_empty (NamePattern params)), (is_empty (Type_ params)),
    (is_empty (Layer params)), (is_empty (Domain params)),
    (is_empty (HealthState params)); simpl;
    (split; [intros Hq | intros (?&?&?&?&?); try done]);
    try done;
    exfalso; revert Hq; apply join_nonempty, clause_nonempty; done.
Qed.

Lemma buildQuery_raw (params : t) :
  Query params <> "" -> buildQuery params = Ok (Query params).
Proof.
  intros Hq. apply is_empty_false in Hq. unfold buildQuery. by rewrite !Hq.
Qed.

Lemma buildQuery_filters (params : t) :
  Query params = "" -> WithNeighbors params = false ->
  buildQuery params =
  if is_empty (baseQuery params)
  then Err "either 'query' or at least one filter (name_pattern, type, layer, domain, healthstate) must be provided"
  else Ok (baseQuery params).
Proof.
  intros Hq Hn. apply is_empty_true in Hq. unfold buildQuery.
  by rewrite Hq, Hn.
Qed.

Lemma neighborsQuery_rewrite (query levels direction : string) :
  query +:+ " OR " +:+ neighborsQuery query levels direction
  = rewrite_neighbors query levels direction.
Proof.
  unfold neighborsQuery, rewrite_neighbors. reflexivity.
Qed.

Lemma validDirections_spec (direction : string) :
  direction ∈ validDirections <->
  direction = "up" \/ direction = "down" \/ direction = "both".
Proof.
  unfold validDirections. rewrite !elem_of_union, !elem_of_singleton. tauto.
Qed.

Lemma GetComponents_trace_ok {W} (h : handler W) (w : W) (params : t) (query : string) :
  buildQuery params = Ok query ->
  run_trace h (GetComponents params) w = [Req (SnapShotTopologyQuery query)].
Proof.
  intros Hb. unfold run_trace, GetComponents. rewrite Hb. simpl.
  destruct (h _ (SnapShotTopologyQuery query) w) as [[cs|e] w']; done.
Qed.
End GetComponentsFacts.

Section GetComponentsClaims.
Import GetComponentsParams.

(** C1. In a call with [with_neighbors] set whose named filters give a
    non-empty base expression (the raw query being empty, so that the named
    filters are read at all), take for the levels and the direction the
    given values, or [1] and [both] where none is given.  If the direction
    is one of [up], [down], [both], the one query sent to the backend is
    the base expression, [OR], and [withNeighborsOf] over the base with
    these levels and direction.  For any other direction the call fails,
    without a request, with an error that names the value. *)
Theorem C1_neighbor_rewrite {W} (h : handler W) (w : W) (params : t) :
  WithNeighbors params = true ->
  Query params = "" ->
  baseQuery params <> "" ->
  let base := baseQuery params in
  let levels :=
    if decide (WithNeighborsLevels params = "") then "1"
    else WithNeighborsLevels params in
  let direction :=
    if decide (WithNeighborsDirection params = "") then "both"
    else WithNeighborsDirection params in
  (direction = "up" \/ direction = "down" \/ direction = "both" ->
   buildQuery params = Ok (rewrite_neighbors base levels direction)
   /\ run_trace h (GetComponents params) w
      = [Req (SnapShotTopologyQuery (rewrite_neighbors base levels direction))])
  /\ (~ (direction = "up" \/ direction = "down" \/ direction = "both") ->
      run h (GetComponents params) w
      = (Err ("invalid with_neighbors_direction '" +:+ direction
                +:+ "'. Must be 'up', 'down', or 'both'"), w, [])).
Proof.
  intros Hn Hq Hbase base levels direction.
  assert (Hb : buildQuery params =
               if bool_decide (direction ∈ validDirections)
               then Ok (rewrite_neighbors base levels direction)
               else Err ("invalid with_neighbors_direction '" +:+ direction
                           +:+ "'. Must be 'up', 'down', or 'both'")).
  { unfold buildQuery. apply is_empty_true in Hq. rewrite Hq, Hn.
    apply is_empty_false in Hbase. rewrite Hbase.
    rewrite !is_empty_decide. fold levels direction base.
    destruct (bool_decide (direction ∈ validDirections)); simpl; [|done].
    rewrite neighborsQuery_rewrite.
    assert (Hne : is_empty (rewrite_neighbors base levels direction) = false).
    { apply is_empty_false. unfold rewrite_neighbors.
      apply string_app_nonempty_l. by apply is_empty_false. }
    by rewrite Hne. }
  split.
  - intros Hdir. apply validDirections_spec in Hdir.
    rewrite bool_decide_eq_true_2 in Hb by done.
    split; [done|]. by apply GetComponents_trace_ok.
  - intros Hdir. rewrite <- validDirections_spec in Hdir.
    rewrite bool_decide_eq_false_2 in Hb by done.
    unfold GetComponents. by rewrite Hb.
Qed.

(** C2. In a call with a non-empty raw query, the one query sent to the
    backend is the raw query as given, and nothing of the run depends on
    the other parameters: two calls with the same raw query run alike. *)
Theorem C2_raw_query_verbatim {W} (h : handler W) (w : W) (params : t) :
  Query params <> "" ->
  run_trace h (GetComponents params) w
  = [Req (SnapShotTopologyQuery (Query params))]
  /\ forall params' : t,
      Query params' = Query params ->
      run h (GetComponents params') w = run h (GetComponents params) w.
Proof.
  intros Hq. split.
  - by apply GetComponents_trace_ok, buildQuery_raw.
  - intros params' Heq. unfold GetComponents.
    rewrite !buildQuery_raw by congruence. rewrite Heq. simpl.
    destruct (h _ _ w) as [[cs|e] w']; simpl; [|done].
    unfold formatComponentsTable. rewrite Heq.
    apply is_empty_false in Hq. by rewrite Hq.
Qed.

(** C3. In a call with an empty raw query, the base query is the AND-join
    of one clause per non-empty named filter, in the order name, type,
    layer, domain, healthstate; it is empty exactly when all five filters
    are empty; and without neighbour expansion a non-empty base query is
    the query sent to the backend. *)
Theorem C3_named_filters_and_join (params : t) :
  Query params = "" ->
  baseQuery params = andJoin params
  /\ (baseQuery params = "" <->
      NamePattern params = "" /\ Type_ params = "" /\ Layer params = ""
      /\ Domain params = "" /\ HealthState params = "")
  /\ (WithNeighbors params = false -> baseQuery params <> "" ->
      forall W (h : handler W) (w : W),
        run_trace h (GetComponents params) w
        = [Req (SnapShotTopologyQuery (baseQuery params))]).
Proof.
  intros Hq. split; [|split].
  - unfold andJoin. by rewrite baseQuery_join, queryParts_filter.
  - apply baseQuery_empty_iff.
  - intros Hn Hbase W h w. apply GetComponents_trace_ok.
    rewrite buildQuery_filters by done.
    apply is_empty_false in Hbase. by rewrite Hbase.
Qed.
End GetComponentsClaims.

Lemma C1_neighbor_rewrite_witness :
  run_trace Sample.backend (GetComponents Sample.redis_down) 0%nat
  = [Req (SnapShotTopologyQuery
            ("name = " +:+ dquote +:+ "redis*" +:+ dquote
               +:+ " OR withNeighborsOf(components = (name = " +:+ dquote
               +:+ "redis*" +:+ dquote +:+ "), levels = " +:+ dquote +:+ "1"
               +:+ dquote +:+ ", direction = " +:+ dquote +:+ "down" +:+ dquote
               +:+ ")"))].
Proof.
  refine (proj2 (proj1 (C1_neighbor_rewrite Sample.backend 0%nat Sample.redis_down
                          eq_refl eq_refl _) _)).
  - vm_compute. discriminate.
  - vm_compute. auto.
Defined.

Lemma C2_raw_query_verbatim_witness :
  run_trace Sample.backend (GetComponents Sample.raw_and_filters) 0%nat
  = [Req (SnapShotTopologyQuery "layer = x")].
Proof.
  refine (proj1 (C2_raw_query_verbatim Sample.backend 0%nat Sample.raw_and_filters _)).
  vm_compute. discriminate.
Defined.

Lemma C3_named_filters_and_join_witness :
  baseQuery Sample.pods_critical
  = "type = " +:+ dquote +:+ "pod" +:+ dquote +:+ " AND healthstate = "
      +:+ dquote +:+ "CRITICAL" +:+ dquote.
Proof.
  refine (eq_trans (proj1 (C3_named_filters_and_join Sample.pods_critical _)) _).
  - reflexivity.
  - vm_compute. reflexivity.
Defined.

(** ** Loops that write to a string builder *)

Lemma concat_empty_sep_cons (x : string) (l : list string) :
  String.concat "" (x :: l) = x +:+ String.concat "" l.
Proof. destruct l; simpl; [by rewrite string_app_nil_r | done]. Qed.

Lemma concat_empty_sep_app (l k : list string) :
  String.concat "" (l ++ k) = String.concat "" l +:+ String.concat "" k.
Proof.
  induction l as [|x l IH]; [done|].
  rewrite <- app_comm_cons, !concat_empty_sep_cons, IH.
  by rewrite string_app_assoc.
Qed.

Lemma foldl_write {A} (f : A -> string) (l : list A) (sb : string) :
  foldl (fun sb x => sb +:+ f x) sb l = sb +:+ String.concat "" (map f l).
Proof.
  revert sb. induction l as [|x l IH]; intros sb.
  - simpl. by rewrite string_app_nil_r.
  - cbn [foldl map]. by rewrite IH, concat_empty_sep_cons, string_app_assoc.
Qed.

(** ** Successive requests *)

Lemma ask_cons {W R} (h : handler W) (c : call R) (cs : list (call R)) (w : W) :
  ask h (c :: cs) w
  = ((h R c w).1 :: (ask h cs (h R c w).2).1, (ask h cs (h R c w).2).2).
Proof. simpl. destruct (h R c w) as [r w']. simpl. by destruct (ask h cs w'). Qed.

Lemma length_answers {W R} (h : handler W) (cs : list (call R)) (w : W) :
  length (answers h cs w) = length cs.
Proof.
  unfold answers. revert w. induction cs as [|c cs IH]; intros w; [done|].
  simpl. destruct (h R c w) as [r w']. specialize (IH w').
  destruct (ask h cs w') as [rs w'']. simpl in *. by rewrite IH.
Qed.

(** ** The monitor and check-state join *)

Section GetMonitorsFacts.
Import GetMonitorsParams.

Lemma detailRows_take (monitor : Monitor.t) (count : Z)
    (states : list CheckState.t) (componentsShown : nat) :
  detailRows monitor count states componentsShown
  = map (detailRow monitor count) (take (maxComponents - componentsShown) states).
Proof.
  revert componentsShown.
  induction states as [|cs states IH]; intros k; cbn [detailRows].
  - by rewrite take_nil.
  - destruct (Nat.leb_spec maxComponents k) as [Hle|Hlt].
    + by replace (maxComponents - k)%nat with 0%nat by lia.
    + replace (maxComponents - k)%nat with (S (maxComponents - S k)) by lia.
      cbn [take map]. by rewrite IH.
Qed.

Lemma monitorRows_degraded (monitor : Monitor.t) (count : Z)
    (resp : result CheckStates.t) :
  match resp with
  | Err _ => True
  | Ok checkStates => CheckStates.States checkStates = []
  end ->
  monitorRows monitor count resp
  = [MonitorRow.mk (Monitor.Name monitor) (Monitor.Description monitor) count "-"].
Proof. destruct resp as [cs|e]; simpl; [intros ->|]; done. Qed.

Lemma monitorRows_more (monitor : Monitor.t) (count : Z)
    (checkStates : CheckStates.t) :
  (5 < length (CheckStates.States checkStates))%nat ->
  monitorRows monitor count (Ok checkStates)
  = map (detailRow monitor count) (take 5 (CheckStates.States checkStates))
      ++ [moreRow monitor count (length (CheckStates.States checkStates))].
Proof.
  intros Hlen. unfold monitorRows. rewrite detailRows_take.
  destruct (Nat.eqb_spec (length (CheckStates.States checkStates)) 0); [lia|].
  destruct (Nat.ltb_spec maxComponents (length (CheckStates.States checkStates)));
    [done | unfold maxComponents in *; lia].
Qed.

Lemma monitorRows_few (monitor : Monitor.t) (count : Z)
    (checkStates : CheckStates.t) :
  (0 < length (CheckStates.States checkStates) <= 5)%nat ->
  monitorRows monitor count (Ok checkStates)
  = map (detailRow monitor count) (CheckStates.States checkStates).
Proof.
  intros Hlen. unfold monitorRows. rewrite detailRows_take.
  destruct (Nat.eqb_spec (length (CheckStates.States checkStates)) 0); [lia|].
  destruct (Nat.ltb_spec maxComponents (length (CheckStates.States checkStates)));
    [unfold maxComponents in *; lia|].
  rewrite app_nil_r, take_ge; [done | unfold maxComponents; lia].
Qed.

Lemma monitorRows_names (monitor : Monitor.t) (count : Z)
    (resp : result CheckStates.t) (row : MonitorRow.t) :
  row ∈ monitorRows monitor count resp ->
  MonitorRow.Name row = Monitor.Name monitor.
Proof.
  unfold monitorRows. destruct resp as [cs|e].
  - destruct (length (CheckStates.States cs) =? 0)%nat.
    + by intros ->%list_elem_of_singleton.
    + rewrite detailRows_take, elem_of_app, list_elem_of_fmap.
      intros [(x & -> & _)|Hin]; [done|].
      destruct (maxComponents <? _)%nat.
      * by apply list_elem_of_singleton in Hin as ->.
      * by apply elem_of_nil in Hin.
  - by intros ->%list_elem_of_singleton.
Qed.

Lemma monitorRows_nonempty (monitor : Monitor.t) (count : Z)
    (resp : result CheckStates.t) :
  monitorRows monitor count resp <> [].
Proof.
  unfold monitorRows. destruct resp as [cs|e]; [|done].
  destruct (CheckStates.States cs) as [|x l] eqn:Hst; [done|].
  by simpl.
Qed.

Lemma collectRows_run {W} (h : handler W) (state : string)
    (monitors : list MonitorOverview.t) (rows : list MonitorRow.t) (w : W) :
  let Q := qualifying state monitors in
  let calls := map (lookupCall state) Q in
  run h (collectRows state monitors rows) w
  = (rows ++ concat (zip_with (monitorBlock state) Q (answers h calls w)),
     (ask h calls w).2, map (fun c => Req c) calls).
Proof.
  revert rows w. induction monitors as [|mo monitors IH]; intros rows w.
  - simpl. by rewrite app_nil_r.
  - cbn [collectRows qualifying List.filter].
    destruct (stateCount state (MonitorOverview.RuntimeMetrics mo) =? 0)%Z eqn:Hc.
    + apply IH.
    + cbn [negb map]. fold (qualifying state monitors). fold (lookupCall state mo).
      rewrite run_Do, IH. unfold answers. rewrite ask_cons.
      cbn [fst snd zip_with concat]. unfold monitorBlock at 2.
      by rewrite <- app_assoc.
Qed.
End GetMonitorsFacts.

Section MonitorCountFacts.
Implicit Types (rows : list MonitorRow.t) (seen : gset string).

Lemma distinct_size (l : list string) :
  distinct l = size (list_to_set l : gset string).
Proof.
  unfold distinct.
  rewrite <- (size_list_to_set (C := gset string) (remove_dups l))
    by apply NoDup_remove_dups.
  f_equal. apply set_eq. intros x.
  by rewrite !elem_of_list_to_set, elem_of_remove_dups.
Qed.

Lemma distinct_NoDup (l : list string) : NoDup l -> distinct l = length l.
Proof. intros Hnd. rewrite distinct_size. by apply size_list_to_set. Qed.

Lemma countStep_foldl rows (n : Z) seen :
  foldl countStep (n, seen) rows
  = ((n + Z.of_nat (size (list_to_set (map MonitorRow.Name rows) ∖ seen)))%Z,
     seen ∪ list_to_set (map MonitorRow.Name rows)).
Proof.
  revert n seen. induction rows as [|row rows IH]; intros n seen.
  - simpl. rewrite difference_disjoint_L, size_empty by set_solver.
    f_equal; [lia | set_solver].
  - cbn [foldl map]. rewrite list_to_set_cons. unfold countStep at 2.
    destruct (decide (MonitorRow.Name row ∈ seen)) as [Hin|Hnin].
    + rewrite IH. f_equal; [|set_solver].
      do 3 f_equal. set_solver.
    + rewrite IH. f_equal; [|set_solver].
      set (names := list_to_set (map MonitorRow.Name rows) : gset string).
      assert (Heq : ({[MonitorRow.Name row]} ∪ names) ∖ seen
                    = {[MonitorRow.Name row]}
                        ∪ names ∖ ({[MonitorRow.Name row]} ∪ seen)).
      { apply set_eq. intros x.
        rewrite !elem_of_union, !elem_of_difference, !elem_of_union,
          !elem_of_singleton.
        destruct (decide (x = MonitorRow.Name row)) as [->|]; tauto. }
      rewrite Heq.
      rewrite (size_union (C:=gset string) {[MonitorRow.Name row]}) by set_solver.
      rewrite size_singleton. lia.
Qed.

Lemma monitorCount_distinct rows :
  monitorCount rows = Z.of_nat (distinct (map MonitorRow.Name rows)).
Proof.
  unfold monitorCount. rewrite countStep_foldl, distinct_size. simpl.
  by rewrite difference_empty_L.
Qed.

Lemma block_names (state : string) (Q : list MonitorOverview.t)
    (resps : list (result CheckStates.t)) :
  length resps = length Q ->
  list_to_set (map MonitorRow.Name (concat (zip_with (monitorBlock state) Q resps)))
  =@{gset string} list_to_set (map monitorName Q).
Proof.
  revert resps. induction Q as [|mo Q IH]; intros [|resp resps] Hlen;
    try done.
  cbn [zip_with concat map]. rewrite map_app, list_to_set_app_L, list_to_set_cons.
  rewrite IH by (simpl in Hlen; lia). f_equal.
  apply set_eq. intros x. rewrite elem_of_list_to_set, elem_of_singleton.
  rewrite list_elem_of_fmap. split.
  - intros (row & -> & Hrow). by apply monitorRows_names in Hrow.
  - intros ->. unfold monitorBlock.
    pose proof (monitorRows_nonempty (MonitorOverview.Monitor mo)
                  (stateCount state (MonitorOverview.RuntimeMetrics mo)) resp) as Hne.
    destruct (monitorRows _ _ resp) as [|row rows] eqn:Hrows; [done|].
    exists row. split; [|left].
    symmetry. eapply monitorRows_names. rewrite Hrows. left.
Qed.

Lemma qualifying_elem (state : string) (monitors : list MonitorOverview.t)
    (mo : MonitorOverview.t) :
  mo ∈ qualifying state monitors <->
  mo ∈ monitors /\ stateCount state (MonitorOverview.RuntimeMetrics mo) <> 0%Z.
Proof.
  unfold qualifying. rewrite list_elem_of_In, filter_In, <- list_elem_of_In.
  by rewrite negb_true_iff, Z.eqb_neq.
Qed.

Lemma qualifying_positive (state : string) (monitors : list MonitorOverview.t) :
  (forall mo, mo ∈ monitors ->
     (0 <= stateCount state (MonitorOverview.RuntimeMetrics mo))%Z) ->
  qualifying state monitors = positiveMonitors state monitors.
Proof.
  intros Hpos. unfold qualifying, positiveMonitors. induction monitors as [|mo monitors IH]; [done|].
  cbn [List.filter]. rewrite IH by (intros; apply Hpos; by right).
  specialize (Hpos mo ltac:(left)).
  destruct (Z.eqb_spec (stateCount state (MonitorOverview.RuntimeMetrics mo)) 0),
    (Z.ltb_spec 0 (stateCount state (MonitorOverview.RuntimeMetrics mo)));
    simpl; try done; lia.
Qed.
End MonitorCountFacts.

Section GetMonitorsRun.
Import GetMonitorsParams.

Lemma validStates_spec (state : string) :
  state ∈ validStates <->
  state = "CRITICAL" \/ state = "DEVIATING" \/ state = "UNKNOWN".
Proof.
  unfold validStates. rewrite !elem_of_union, !elem_of_singleton. tauto.
Qed.

Lemma renderMonitors_table (state : string) (rows : list MonitorRow.t) :
  rows <> [] ->
  renderMonitors state rows = monitorsTable (monitorCount rows) state rows.
Proof.
  intros Hne. unfold renderMonitors, monitorsTable.
  destruct rows as [|row rows]; [done|]. cbn [length Nat.eqb].
  by rewrite foldl_write, string_app_assoc.
Qed.

Lemma GetMonitors_invalid {W} (h : handler W) (w : W) (params : t) :
  effectiveState params ∉ validStates ->
  run h (GetMonitors params) w
  = (Err ("invalid state '" +:+ effectiveState params
            +:+ "'. Allowed values: CRITICAL, DEVIATING, UNKNOWN"), w, []).
Proof.
  intros Hst. unfold GetMonitors. by rewrite bool_decide_eq_false_2.
Qed.

Lemma GetMonitors_run {W} (h : handler W) (w : W) (params : t)
    (overview : MonitorsOverview.t) :
  let state := effectiveState params in
  let w1 := (h _ GetMonitorsOverview w).2 in
  let Q := qualifying state (MonitorsOverview.Monitors overview) in
  let calls := map (lookupCall state) Q in
  state ∈ validStates ->
  (h _ GetMonitorsOverview w).1 = Ok overview ->
  run h (GetMonitors params) w
  = (Ok (renderMonitors state
           (concat (zip_with (monitorBlock state) Q (answers h calls w1)))),
     (ask h calls w1).2,
     Req GetMonitorsOverview :: map (fun c => Req c) calls).
Proof.
  intros state w1 Q calls Hst Hov. unfold GetMonitors. fold state.
  rewrite bool_decide_eq_true_2 by done. cbn [negb].
  rewrite run_bind, run_perform, Hov. fold w1.
  rewrite run_bind, collectRows_run. cbn [run app]. by rewrite app_nil_r.
Qed.
End GetMonitorsRun.

Section GetMonitorsClaims.
Import GetMonitorsParams.

(** C4. In a run of [GetMonitors] that reaches the join, the rows are the
    blocks of the monitors with a non-zero counter, in order, one block per
    answer of the check-state lookup.  When the lookup of a monitor returns
    more than five entries, its block is the detail rows of the first five
    entries followed by exactly one more row, whose description is [-] and
    whose affected component reads [... and k more], [k] being the number
    of entries returned minus five; the row is rendered with these cells. *)
Theorem C4_continuation_row {W} (h : handler W) (w : W) (params : t)
    (overview : MonitorsOverview.t) :
  let state := effectiveState params in
  let w1 := (h _ GetMonitorsOverview w).2 in
  let Q := qualifying state (MonitorsOverview.Monitors overview) in
  let resps := answers h (map (lookupCall state) Q) w1 in
  state ∈ validStates ->
  (h _ GetMonitorsOverview w).1 = Ok overview ->
  run_value h (GetMonitors params) w
  = Ok (renderMonitors state (concat (zip_with (monitorBlock state) Q resps)))
  /\ forall (mo : MonitorOverview.t) (checkStates : CheckStates.t),
      let states := CheckStates.States checkStates in
      let monitor := MonitorOverview.Monitor mo in
      let count := stateCount state (MonitorOverview.RuntimeMetrics mo) in
      let k := (Z.of_nat (length states) - 5)%Z in
      let more :=
        MonitorRow.mk (Monitor.Name monitor) "-" count
          ("... and " +:+ fmt_d k +:+ " more") in
      (5 < length states)%nat ->
      monitorBlock state mo (Ok checkStates)
      = map (detailRow monitor count) (take 5 states) ++ [more]
      /\ length (map (detailRow monitor count) (take 5 states)) = 5%nat
      /\ renderRow more
         = "| " +:+ Monitor.Name monitor +:+ " | - | " +:+ fmt_d count
             +:+ " | ... and " +:+ fmt_d k +:+ " more |" +:+ nl.
Proof.
  intros state w1 Q resps Hst Hov. split.
  - unfold run_value. by rewrite (GetMonitors_run h w params overview).
  - intros mo checkStates states monitor count k more Hlen.
    split; [|split].
    + unfold monitorBlock. by rewrite monitorRows_more.
    + rewrite length_map, length_take. lia.
    + unfold renderRow, more. cbn [MonitorRow.Description MonitorRow.Name
        MonitorRow.AffectedCount MonitorRow.AffectedComponent].
      change (is_empty "-") with false. change (50 <? String.length "-")%nat with false.
      cbn iota. by rewrite !string_app_assoc.
Qed.

(** C5 (amended). In a run of [GetMonitors] that renders a table, the rows
    are the blocks of the monitors whose counter for the state is not zero,
    so a monitor with a zero counter contributes no row; the monitor count
    of the summary line is the number of distinct monitor names among the
    rows, which is the number of distinct names among the monitors with a
    non-zero counter.  It is the number of these monitors when their names
    are pairwise distinct, and these are the monitors with a strictly
    positive counter when no counter is negative. *)
Theorem C5_monitor_count {W} (h : handler W) (w : W) (params : t)
    (overview : MonitorsOverview.t) :
  let state := effectiveState params in
  let monitors := MonitorsOverview.Monitors overview in
  let w1 := (h _ GetMonitorsOverview w).2 in
  let Q := qualifying state monitors in
  let resps := answers h (map (lookupCall state) Q) w1 in
  let rows := concat (zip_with (monitorBlock state) Q resps) in
  state ∈ validStates ->
  (h _ GetMonitorsOverview w).1 = Ok overview ->
  Q <> [] ->
  rows <> []
  /\ (forall mo, mo ∈ Q <->
        mo ∈ monitors
        /\ stateCount state (MonitorOverview.RuntimeMetrics mo) <> 0%Z)
  /\ length resps = length Q
  /\ run_value h (GetMonitors params) w
     = Ok (monitorsTable (monitorCount rows) state rows)
  /\ monitorCount rows = Z.of_nat (distinct (map MonitorRow.Name rows))
  /\ distinct (map MonitorRow.Name rows) = distinct (map monitorName Q)
  /\ (NoDup (map monitorName Q) -> monitorCount rows = Z.of_nat (length Q))
  /\ ((forall mo, mo ∈ monitors ->
         (0 <= stateCount state (MonitorOverview.RuntimeMetrics mo))%Z) ->
      Q = positiveMonitors state monitors).
Proof.
  intros state monitors w1 Q resps rows Hst Hov HQ.
  assert (Hlen : length resps = length Q).
  { unfold resps. by rewrite length_answers, length_map. }
  assert (Hrows : rows <> []).
  { unfold rows. destruct Q as [|mo Q']; [done|].
    destruct resps as [|resp resps']; [done|].
    cbn [zip_with concat]. intros Hnil. apply app_eq_nil in Hnil as [Hnil _].
    by apply monitorRows_nonempty in Hnil. }
  assert (Hdist : distinct (map MonitorRow.Name rows) = distinct (map monitorName Q)).
  { rewrite !distinct_size. unfold rows. by rewrite block_names. }
  split; [done|]. split; [apply qualifying_elem|]. split; [done|].
  split; [|split; [|split; [|split]]].
  - unfold run_value. rewrite (GetMonitors_run h w params overview) by done.
    cbn [fst]. by rewrite renderMonitors_table.
  - apply monitorCount_distinct.
  - done.
  - intros Hnd. rewrite monitorCount_distinct, Hdist, distinct_NoDup by done.
    by rewrite length_map.
  - apply qualifying_positive.
Qed.
End GetMonitorsClaims.

Lemma C4_continuation_row_witness :
  run_value Sample.backend (GetMonitors (GetMonitorsParams.mk "DEVIATING")) 0%nat
  = Ok (String.concat nl
          [ "Found 1 monitor(s) in DEVIATING state:";
            "";
            "| Monitor Name | Description | Affected Count | Affected Component |";
            "|---|---|---|---|";
            "| cpu | - | 7 | c1 (ID:1) |";
            "| cpu | - | 7 | c2 (URN:2) |";
            "| cpu | - | 7 | c3 (ID:3) |";
            "| cpu | - | 7 | c4 (ID:4) |";
            "| cpu | - | 7 | c5 (ID:5) |";
            "| cpu | - | 7 | ... and 3 more |";
            "" ])
  /\ monitorBlock "DEVIATING" Sample.cpu (Ok Sample.eight)
     = [ MonitorRow.mk "cpu" "" 7 "c1 (ID:1)";
         MonitorRow.mk "cpu" "" 7 "c2 (URN:2)";
         MonitorRow.mk "cpu" "" 7 "c3 (ID:3)";
         MonitorRow.mk "cpu" "" 7 "c4 (ID:4)";
         MonitorRow.mk "cpu" "" 7 "c5 (ID:5)";
         MonitorRow.mk "cpu" "-" 7 "... and 3 more" ].
Proof.
  destruct (C4_continuation_row Sample.backend 0%nat
              (GetMonitorsParams.mk "DEVIATING") Sample.overview) as [Hrun Hblock].
  - apply validStates_spec. vm_compute. auto.
  - reflexivity.
  - split.
    + etrans; [exact Hrun | vm_compute; reflexivity].
    + destruct (Hblock Sample.cpu Sample.eight) as (Hb & _ & _).
      * vm_compute. lia.
      * etrans; [exact Hb | vm_compute; reflexivity].
Defined.

Lemma C5_monitor_count_witness :
  run_value Sample.backend (GetMonitors (GetMonitorsParams.mk "")) 0%nat
  = Ok (String.concat nl
          [ "Found 2 monitor(s) in CRITICAL state:";
            "";
            "| Monitor Name | Description | Affected Count | Affected Component |";
            "|---|---|---|---|";
            "| disk | d | 1 | - |";
            "| mem | m | 1 | - |";
            "" ]).
Proof.
  destruct (C5_monitor_count Sample.backend 0%nat (GetMonitorsParams.mk "")
              Sample.overview) as (_ & _ & _ & Hrun & _).
  - apply validStates_spec. vm_compute. auto.
  - reflexivity.
  - vm_compute. discriminate.
  - etrans; [exact Hrun | vm_compute; reflexivity].
Defined.

(** C5 as stated fails when two monitors share a name: both monitors of the
    sample have a strictly positive critical counter, and the summary line
    reports one monitor. *)
Lemma C5_counterexample :
  run_value Sample.twins_backend (GetMonitors (GetMonitorsParams.mk "CRITICAL")) 0%nat
  = Ok (String.concat nl
          [ "Found 1 monitor(s) in CRITICAL state:";
            "";
            "| Monitor Name | Description | Affected Count | Affected Component |";
            "|---|---|---|---|";
            "| cpu | node a | 1 | - |";
            "| cpu | node b | 2 | - |";
            "" ])
  /\ length (positiveMonitors "CRITICAL" (MonitorsOverview.Monitors Sample.twins))
     = 2%nat.
Proof. split; vm_compute; reflexivity. Qed.

(** ** The metric listing *)

Section ListMetricsFacts.
Context {golib : GoLib}.

Lemma metricLine_degraded (metricName : string) (resp : result (list string)) :
  match resp with Err _ => True | Ok labels => labels = [] end ->
  metricLine metricName resp = "| " +:+ metricName +:+ " | - |" +:+ nl.
Proof. destruct resp as [labels|e]; simpl; [intros ->|]; done. Qed.

Lemma writeMetricLines_run {W} (h : handler W) (names : list string)
    (start end_ : Time) (sb : string) (w : W) :
  let calls := map (labelsCall start end_) names in
  run h (writeMetricLines names start end_ sb) w
  = (sb +:+ String.concat "" (zip_with metricLine names (answers h calls w)),
     (ask h calls w).2, map (fun c => Req c) calls).
Proof.
  revert sb w. induction names as [|name names IH]; intros sb w.
  - simpl. by rewrite string_app_nil_r.
  - cbn [writeMetricLines map]. fold (labelsCall start end_ name).
    rewrite run_Do, IH. unfold answers. rewrite ask_cons.
    cbn [fst snd zip_with]. by rewrite concat_empty_sep_cons, string_app_assoc.
Qed.

Lemma ListMetrics_required {W} (h : handler W) (w : W) (params : ListMetricsParams.t) :
  ListMetricsParams.SearchPattern params = "" ->
  run h (ListMetrics params) w = (Err "search_pattern is required", w, []).
Proof. intros Hp. unfold ListMetrics. by rewrite Hp. Qed.

Lemma ListMetrics_listing {W} (h : handler W) (w : W) (params : ListMetricsParams.t) :
  let pattern := ListMetricsParams.SearchPattern params in
  let end_ := (h _ time_Now w).1 in
  let w1 := (h _ time_Now w).2 in
  let start := (end_ + (-1) * time_Hour)%Z in
  let w2 := (h _ (ClientListMetrics start end_) w1).2 in
  pattern <> "" ->
  run h (ListMetrics params) w
  = match (h _ (ClientListMetrics start end_) w1).1 with
    | Err e =>
        (Err ("failed to list metrics: " +:+ e), w2,
         [Req time_Now; Req (ClientListMetrics start end_)])
    | Ok metrics =>
        match regexp_Compile pattern with
        | Err e =>
            (Err ("invalid regex pattern: " +:+ e), w2,
             [Req time_Now; Req (ClientListMetrics start end_)])
        | Ok re =>
            let filteredMetrics := List.filter (MatchString re) metrics in
            if (length filteredMetrics =? 0)%nat then
              (Ok ("No metrics found matching '" +:+ pattern +:+ "'."), w2,
               [Req time_Now; Req (ClientListMetrics start end_)])
            else
              let shown := take maxMetrics filteredMetrics in
              let calls := map (labelsCall start end_) shown in
              (Ok (metricsHeader pattern filteredMetrics
                     +:+ String.concat "" (zip_with metricLine shown (answers h calls w2))
                     +:+ metricsFooter filteredMetrics),
               (ask h calls w2).2,
               Req time_Now :: Req (ClientListMetrics start end_)
                 :: map (fun c => Req c) calls)
        end
    end.
Proof.
  intros pattern end_ w1 start w2 Hp. apply is_empty_false in Hp.
  unfold ListMetrics. fold pattern. rewrite Hp.
  rewrite run_bind, run_perform. fold end_ w1. cbv zeta. fold start.
  rewrite run_bind, run_perform. fold w2.
  destruct (h _ (ClientListMetrics start end_) w1).1 as [metrics|e]; [|done].
  destruct (regexp_Compile pattern) as [re|e]; [|done].
  set (filteredMetrics := List.filter (MatchString re) metrics).
  destruct (length filteredMetrics =? 0)%nat eqn:Hlen; [done|].
  assert (Hshown : (if (maxMetrics <? length filteredMetrics)%nat
                    then take maxMetrics filteredMetrics else filteredMetrics)
                   = take maxMetrics filteredMetrics).
  { destruct (Nat.ltb_spec maxMetrics (length filteredMetrics)); [done|].
    by rewrite take_ge. }
  rewrite Hshown, run_bind, writeMetricLines_run. cbn [run app].
  rewrite app_nil_r. repeat f_equal.
  unfold metricsHeader, metricsFooter.
  destruct (maxMetrics <? length filteredMetrics)%nat;
    rewrite ?string_app_nil_r, ?string_app_assoc; reflexivity.
Qed.
End ListMetricsFacts.

(** ** The range query *)

Section QueryRangeMetricFacts.
Context {golib : GoLib}.

Lemma parseTime_ok {W} (h : handler W) (s : string) (w : W) :
  parses s ->
  exists t : Time,
    run h (parseTime s) w = (Ok t, (h _ time_Now w).2, [Req time_Now]).
Proof.
  intros Hs. unfold parseTime.
  destruct (String.eqb s "now") eqn:Hnow.
  - exists (h _ time_Now w).1. by rewrite run_bind, run_perform.
  - destruct Hs as [->|[d Hd]]; [by rewrite String.eqb_refl in Hnow|].
    rewrite Hd. exists ((h _ time_Now w).1 + neg_Duration d)%Z.
    by rewrite run_bind, run_perform.
Qed.

Lemma parseTime_invalid {W} (h : handler W) (s : string) (w : W) :
  ~ parses s ->
  run h (parseTime s) w
  = (Err ("invalid time format: " +:+ s
            +:+ " (expected 'now' or duration like '1h')"), w, []).
Proof.
  intros Hs. unfold parseTime.
  destruct (String.eqb_spec s "now") as [->|_]; [destruct Hs; by left|].
  destruct (time_ParseDuration s) as [d|] eqn:Hd; [|done].
  destruct Hs. right. by exists d.
Qed.

Lemma QueryRangeMetric_value {W} (h : handler W) (w : W)
    (params : QueryRangeMetricParams.t) :
  parses (QueryRangeMetricParams.Start params) ->
  parses (QueryRangeMetricParams.End_ params) ->
  exists (start end_ : Time) (step : string) (w2 : W),
    run_value h (QueryRangeMetric params) w
    = match (h _ (ClientQueryRangeMetric (QueryRangeMetricParams.Query params)
                    start end_ step "30s") w2).1 with
      | Err e => Err ("failed to query range metri c: " +:+ e)
      | Ok result => Ok (formatMetrics result (QueryRangeMetricParams.Query params))
      end.
Proof.
  intros Hs He. unfold run_value, QueryRangeMetric.
  destruct (parseTime_ok h _ w Hs) as [start Hstart].
  rewrite run_bind, Hstart.
  destruct (parseTime_ok h _ (h _ time_Now w).2 He) as [end_ Hend].
  rewrite run_bind, Hend.
  exists start, end_,
    (if is_empty (QueryRangeMetricParams.Step params) then "1m"
     else QueryRangeMetricParams.Step params),
    (h _ time_Now (h _ time_Now w).2).2.
  rewrite run_bind, run_perform.
  by destruct (h _ (ClientQueryRangeMetric _ _ _ _ _) _).1.
Qed.
End QueryRangeMetricFacts.

(** ** Degraded lookups, validation errors and empty results *)

Section ErrorHandlingClaims.
Context {golib : GoLib}.

(** C6. A check-state lookup or a label lookup that fails or returns nothing
    does not fail the call.  [GetMonitors], once the state is valid and the
    overview is read, returns a text whatever the lookups answer: the rows
    are the blocks of the monitors, each block depending on the answer for
    its monitor alone, and the block of a failed or empty lookup is the one
    row of the monitor with [-] as affected component.  [ListMetrics], once
    the names are listed and the pattern compiled and matched, returns a text
    whatever the label lookups answer: one line per metric shown, each
    depending on the answer for its metric alone, and the line of a failed or
    empty lookup has [-] in the labels cell. *)
Theorem C6_degraded_lookups {W} (h : handler W) (w : W) :
  (forall (params : GetMonitorsParams.t) (overview : MonitorsOverview.t),
      let state := effectiveState params in
      let w1 := (h _ GetMonitorsOverview w).2 in
      let Q := qualifying state (MonitorsOverview.Monitors overview) in
      let resps := answers h (map (lookupCall state) Q) w1 in
      state ∈ validStates ->
      (h _ GetMonitorsOverview w).1 = Ok overview ->
      run_value h (GetMonitors params) w
      = Ok (renderMonitors state (concat (zip_with (monitorBlock state) Q resps)))
      /\ length resps = length Q)
  /\ (forall (state : string) (mo : MonitorOverview.t) (resp : result CheckStates.t),
         match resp with
         | Err _ => True
         | Ok checkStates => CheckStates.States checkStates = []
         end ->
         monitorBlock state mo resp
         = [MonitorRow.mk (monitorName mo)
              (Monitor.Description (MonitorOverview.Monitor mo))
              (stateCount state (MonitorOverview.RuntimeMetrics mo)) "-"])
  /\ (forall (params : ListMetricsParams.t) (metrics : list string) (re : Regexp),
         let pattern := ListMetricsParams.SearchPattern params in
         let end_ := (h _ time_Now w).1 in
         let w1 := (h _ time_Now w).2 in
         let start := (end_ + (-1) * time_Hour)%Z in
         let w2 := (h _ (ClientListMetrics start end_) w1).2 in
         let filteredMetrics := List.filter (MatchString re) metrics in
         let shown := take maxMetrics filteredMetrics in
         let resps := answers h (map (labelsCall start end_) shown) w2 in
         pattern <> "" ->
         (h _ (ClientListMetrics start end_) w1).1 = Ok metrics ->
         regexp_Compile pattern = Ok re ->
         filteredMetrics <> [] ->
         run_value h (ListMetrics params) w
         = Ok (metricsHeader pattern filteredMetrics
                 +:+ String.concat "" (zip_with metricLine shown resps)
                 +:+ metricsFooter filteredMetrics)
         /\ length resps = length shown)
  /\ (forall (metricName : string) (resp : result (list string)),
         match resp with Err _ => True | Ok labels => labels = [] end ->
         metricLine metricName resp = "| " +:+ metricName +:+ " | - |" +:+ nl).
Proof.
  split; [|split; [|split]].
  - intros params overview state w1 Q resps Hst Hov. split.
    + unfold run_value. by rewrite (GetMonitors_run h w params overview).
    + unfold resps. by rewrite length_answers, length_map.
  - intros state mo resp Hresp. unfold monitorBlock. by apply monitorRows_degraded.
  - intros params metrics re pattern end_ w1 start w2 filteredMetrics shown resps
      Hp Hlist Hre Hne. split.
    + unfold run_value. rewrite (ListMetrics_listing h w params) by done.
      fold pattern end_ w1 start. rewrite Hlist, Hre. cbv zeta.
      fold filteredMetrics.
      destruct filteredMetrics as [|m ms] eqn:Hf; [done|]. done.
    + unfold resps. by rewrite length_answers, length_map.
  - apply metricLine_degraded.
Qed.

(** C7 (amended). The validation errors of [GetComponents] (no raw query and
    no filter, neighbour expansion without a filter, a direction that is not
    one of the three), of [GetMonitors] (a state that is not one of the
    three) and the missing search pattern of [ListMetrics] are returned
    without any request made.  A pattern that does not compile is reported
    too, but after the clock is read and the metric names are requested from
    the backend: the error is the listing failure if that request fails, and
    the invalid-pattern error otherwise. *)
Theorem C7_validation_errors {W} (h : handler W) (w : W) :
  (forall (params : GetComponentsParams.t) (msg : string),
      buildQuery params = Err msg ->
      run h (GetComponents params) w = (Err msg, w, []))
  /\ (forall params : GetComponentsParams.t,
         GetComponentsParams.Query params = "" ->
         baseQuery params = "" ->
         buildQuery params
         = Err (if GetComponentsParams.WithNeighbors params
                then "with_neighbors requires at least one filter to define the components"
                else "either 'query' or at least one filter (name_pattern, type, layer, domain, healthstate) must be provided"))
  /\ (forall params : GetComponentsParams.t,
         let direction :=
           if decide (GetComponentsParams.WithNeighborsDirection params = "")
           then "both" else GetComponentsParams.WithNeighborsDirection params in
         GetComponentsParams.Query params = "" ->
         baseQuery params <> "" ->
         GetComponentsParams.WithNeighbors params = true ->
         direction ∉ validDirections ->
         buildQuery params
         = Err ("invalid with_neighbors_direction '" +:+ direction
                  +:+ "'. Must be 'up', 'down', or 'both'"))
  /\ (forall params : GetMonitorsParams.t,
         effectiveState params ∉ validStates ->
         run h (GetMonitors params) w
         = (Err ("invalid state '" +:+ effectiveState params
                   +:+ "'. Allowed values: CRITICAL, DEVIATING, UNKNOWN"), w, []))
  /\ (forall params : ListMetricsParams.t,
         ListMetricsParams.SearchPattern params = "" ->
         run h (ListMetrics params) w = (Err "search_pattern is required", w, []))
  /\ (forall (params : ListMetricsParams.t) (e : string),
         let pattern := ListMetricsParams.SearchPattern params in
         let end_ := (h _ time_Now w).1 in
         let w1 := (h _ time_Now w).2 in
         let start := (end_ + (-1) * time_Hour)%Z in
         pattern <> "" ->
         regexp_Compile pattern = Err e ->
         run_trace h (ListMetrics params) w
         = [Req time_Now; Req (ClientListMetrics start end_)]
         /\ run_value h (ListMetrics params) w
            = match (h _ (ClientListMetrics start end_) w1).1 with
              | Err e' => Err ("failed to list metrics: " +:+ e')
              | Ok _ => Err ("invalid regex pattern: " +:+ e)
              end).
Proof.
  split; [|split; [|split; [|split; [|split]]]].
  - intros params msg Hb. unfold GetComponents. by rewrite Hb.
  - intros params Hq Hbase. unfold buildQuery.
    apply is_empty_true in Hq. rewrite Hq, Hbase.
    by destruct (GetComponentsParams.WithNeighbors params).
  - intros params direction Hq Hbase Hn Hdir. unfold buildQuery.
    apply is_empty_true in Hq. apply is_empty_false in Hbase.
    rewrite Hq, Hn, Hbase, !is_empty_decide. fold direction.
    by rewrite bool_decide_eq_false_2.
  - intros params Hst. by apply GetMonitors_invalid.
  - intros params Hp. by apply ListMetrics_required.
  - intros params e pattern end_ w1 start Hp Hre.
    unfold run_trace, run_value. rewrite (ListMetrics_listing h w params) by done.
    fold pattern end_ w1 start. rewrite Hre.
    by destruct (h _ (ClientListMetrics start end_) w1).1.
Qed.

(** C9 (amended). A primary query without matches is not an error.  When the
    topology query answers with no component, [GetComponents] returns the
    text [No components found for query: ] followed by the query it sent;
    [formatMetrics] on no series is the text [No data found.], and
    [QueryRangeMetric] returns it when its time arguments parse and the
    backend answers with no series. *)
Theorem C9_empty_results {W} (h : handler W) (w : W) :
  (forall (params : GetComponentsParams.t) (query : string),
      buildQuery params = Ok query ->
      (h _ (SnapShotTopologyQuery query) w).1 = Ok [] ->
      run_value h (GetComponents params) w
      = Ok ("No components found for query: " +:+ query)
      /\ run_trace h (GetComponents params) w = [Req (SnapShotTopologyQuery query)])
  /\ (forall queryName : string, formatMetrics [] queryName = "No data found.")
  /\ (forall params : QueryRangeMetricParams.t,
         parses (QueryRangeMetricParams.Start params) ->
         parses (QueryRangeMetricParams.End_ params) ->
         (forall (start end_ : Time) (step : string) (w' : W),
             (h _ (ClientQueryRangeMetric (QueryRangeMetricParams.Query params)
                     start end_ step "30s") w').1 = Ok []) ->
         run_value h (QueryRangeMetric params) w = Ok "No data found.").
Proof.
  split; [|split].
  - intros params query Hb Hnone. split; [|by apply GetComponents_trace_ok].
    unfold run_value, GetComponents. rewrite Hb, run_bind, run_perform, Hnone.
    done.
  - done.
  - intros params Hs He Hnone.
    destruct (QueryRangeMetric_value h w params Hs He) as (start & end_ & step & w2 & ->).
    by rewrite Hnone.
Qed.
End ErrorHandlingClaims.

Lemma C6_degraded_lookups_witness :
  run_value Sample.backend (GetMonitors (GetMonitorsParams.mk "")) 0%nat
  = Ok (String.concat nl
          [ "Found 2 monitor(s) in CRITICAL state:";
            "";
            "| Monitor Name | Description | Affected Count | Affected Component |";
            "|---|---|---|---|";
            "| disk | d | 1 | - |";
            "| mem | m | 1 | - |";
            "" ])
  /\ run_value Sample.backend
       (ListMetrics (golib := Sample.golib) (ListMetricsParams.mk "cpu")) 0%nat
     = Ok (String.concat nl
             [ "Found 2 metrics matching 'cpu':";
               "";
               "| Metric Name | Labels |";
               "|---|---|";
               "| cpu_a | x, y |";
               "| cpu_b | - |";
               "" ]).
Proof.
  destruct (C6_degraded_lookups (golib := Sample.golib) Sample.backend 0%nat)
    as (Hmon & _ & Hlist & _).
  split.
  - destruct (Hmon (GetMonitorsParams.mk "") Sample.overview) as [Hrun _].
    + apply validStates_spec. vm_compute. auto.
    + reflexivity.
    + etrans; [exact Hrun | vm_compute; reflexivity].
  - destruct (Hlist (ListMetricsParams.mk "cpu") ["cpu_a"; "mem"; "cpu_b"] "cpu")
      as [Hrun _].
    + vm_compute. discriminate.
    + reflexivity.
    + reflexivity.
    + vm_compute. discriminate.
    + etrans; [exact Hrun | vm_compute; reflexivity].
Defined.

Lemma C7_validation_errors_witness :
  run Sample.backend (GetMonitors (GetMonitorsParams.mk "CLEAR")) 0%nat
  = (Err "invalid state 'CLEAR'. Allowed values: CRITICAL, DEVIATING, UNKNOWN",
     0%nat, [])
  /\ run Sample.backend (GetComponents Sample.pods_sideways) 0%nat
     = (Err "invalid with_neighbors_direction 'sideways'. Must be 'up', 'down', or 'both'",
        0%nat, []).
Proof.
  destruct (C7_validation_errors (golib := Sample.golib) Sample.backend 0%nat)
    as (Hcomp & _ & Hdir & Hmon & _).
  split.
  - refine (eq_trans (Hmon (GetMonitorsParams.mk "CLEAR") _) _).
    + rewrite validStates_spec. vm_compute. intros [?|[?|?]]; discriminate.
    + vm_compute. reflexivity.
  - apply Hcomp. refine (eq_trans (Hdir Sample.pods_sideways _ _ _ _) _).
    + reflexivity.
    + vm_compute. discriminate.
    + reflexivity.
    + rewrite validDirections_spec. vm_compute. intros [?|[?|?]]; discriminate.
    + vm_compute. reflexivity.
Defined.

(** C7 as stated fails for the pattern that does not compile: the error is
    returned after the names of the metrics were requested from the backend. *)
Lemma C7_counterexample :
  run_value Sample.backend
    (ListMetrics (golib := Sample.golib) (ListMetricsParams.mk "(")) 0%nat
  = Err "invalid regex pattern: error parsing regexp: missing closing ): `(`"
  /\ backend_calls Sample.backend
       (ListMetrics (golib := Sample.golib) (ListMetricsParams.mk "(")) 0%nat
     = [Req (ClientListMetrics (-3600000000000)%Z 0%Z)].
Proof. split; vm_compute; reflexivity. Qed.

Lemma C9_empty_results_witness :
  run_value Sample.backend (GetComponents Sample.raw_and_filters) 0%nat
  = Ok "No components found for query: layer = x"
  /\ run_value Sample.backend
       (QueryRangeMetric (golib := Sample.golib)
          (QueryRangeMetricParams.mk "none" "1h" "now" "")) 0%nat
     = Ok "No data found.".
Proof.
  destruct (C9_empty_results (golib := Sample.golib) Sample.backend 0%nat)
    as (Hcomp & _ & Hrange).
  split.
  - destruct (Hcomp Sample.raw_and_filters "layer = x") as [Hrun _];
      [reflexivity | reflexivity | exact Hrun].
  - apply Hrange.
    + right. vm_compute. eauto.
    + left. reflexivity.
    + intros start end_ step w'. reflexivity.
Defined.

(** C9 as stated fails on the wording of the two messages: they start with a
    capital letter, and the second ends with a full stop. *)
Lemma C9_counterexample :
  run_value Sample.backend (GetComponents Sample.raw_and_filters) 0%nat
  <> Ok "no components found for query: layer = x"
  /\ formatMetrics (golib := Sample.golib) [] "none" <> "no data found".
Proof. split; vm_compute; discriminate. Qed.

(** ** The metric table *)

Lemma foldl_write_ext {A} (g : string -> A -> string) (f : A -> string)
    (l : list A) (sb : string) :
  (forall sb x, g sb x = sb +:+ f x) ->
  foldl g sb l = sb +:+ String.concat "" (map f l).
Proof.
  intros Hg. revert sb. induction l as [|x l IH]; intros sb.
  - simpl. by rewrite string_app_nil_r.
  - cbn [foldl map]. by rewrite IH, Hg, concat_empty_sep_cons, string_app_assoc.
Qed.

Lemma concat_empty_sep_flat_map {A} (f : A -> list string) (l : list A) :
  String.concat "" (flat_map f l)
  = String.concat "" (map (fun x => String.concat "" (f x)) l).
Proof.
  induction l as [|x l IH]; [done|].
  cbn [flat_map map]. by rewrite concat_empty_sep_app, concat_empty_sep_cons, IH.
Qed.

Section MetricTableFacts.
Context {golib : GoLib}.

Lemma addLabelKeys_spec (labelKeys : gset string) (res : MetricResult.t) (k : string) :
  k ∈ addLabelKeys labelKeys res <->
  k ∈ labelKeys \/ (k <> "__name__" /\ is_Some (MetricResult.Labels res !! k)).
Proof.
  unfold addLabelKeys. revert k.
  apply (map_fold_weak_ind
           (fun (r : gset string) (m : gmap string string) =>
              forall k, k ∈ r <-> k ∈ labelKeys \/ (k <> "__name__" /\ is_Some (m !! k)))).
  - intros k. rewrite lookup_empty. split; [by left|].
    intros [?|[_ [? ?]]]; done.
  - intros i x m r Hi IH k. destruct (decide (i = "__name__")) as [->|Hne].
    + rewrite IH. destruct (decide (k = "__name__")) as [->|Hk].
      * split; intros [?|[? _]]; auto; done.
      * by rewrite lookup_insert_ne.
    + rewrite elem_of_union, elem_of_singleton, IH.
      destruct (decide (k = i)) as [->|Hk].
      * rewrite lookup_insert_eq. split; [|by auto].
        intros _. right. split; [done | by eexists].
      * rewrite lookup_insert_ne by done. tauto.
Qed.

Lemma foldl_addLabelKeys_spec (metricsResult : list MetricResult.t)
    (labelKeys : gset string) (k : string) :
  k ∈ foldl addLabelKeys labelKeys metricsResult <->
  k ∈ labelKeys
  \/ (k <> "__name__"
      /\ exists res, res ∈ metricsResult /\ is_Some (MetricResult.Labels res !! k)).
Proof.
  revert labelKeys. induction metricsResult as [|res rs IH]; intros labelKeys.
  - simpl. split; [by left|]. intros [?|(_ & res & Hin & _)]; [done|].
    by apply elem_of_nil in Hin.
  - cbn [foldl]. rewrite IH, addLabelKeys_spec. split.
    + intros [[?|[? ?]]|(? & res' & ? & ?)].
      * by left.
      * right. split; [done|]. exists res. split; [left | done].
      * right. split; [done|]. exists res'. split; [by right | done].
    + intros [?|(? & res' & Hin & ?)]; [by left; left|].
      apply elem_of_cons in Hin as [->|Hin].
      * left. by right.
      * right. split; [done|]. by exists res'.
Qed.

Lemma collectLabelKeys_spec (metricsResult : list MetricResult.t) (k : string) :
  k ∈ collectLabelKeys metricsResult <->
  k <> "__name__"
  /\ exists res, res ∈ metricsResult /\ is_Some (MetricResult.Labels res !! k).
Proof.
  unfold collectLabelKeys. rewrite foldl_addLabelKeys_spec.
  split; [intros [Hin|?]; [by apply not_elem_of_empty in Hin | done] | by right].
Qed.

Lemma sortedKeys_elem (metricsResult : list MetricResult.t) (k : string) :
  k ∈ sortedKeys metricsResult <->
  k <> "__name__"
  /\ exists res, res ∈ metricsResult /\ is_Some (MetricResult.Labels res !! k).
Proof.
  unfold sortedKeys. rewrite merge_sort_Permutation, elem_of_elements.
  apply collectLabelKeys_spec.
Qed.

Lemma sortedKeys_Sorted (metricsResult : list MetricResult.t) :
  Sorted String.le (sortedKeys metricsResult).
Proof. apply (Sorted_merge_sort String.le). Qed.

Lemma sortedKeys_NoDup (metricsResult : list MetricResult.t) :
  NoDup (sortedKeys metricsResult).
Proof.
  unfold sortedKeys. rewrite merge_sort_Permutation. apply NoDup_elements.
Qed.

Lemma sortedKeys_unique (metricsResult : list MetricResult.t) (l : list string) :
  Sorted String.le l -> NoDup l ->
  (forall k, k ∈ l <-> k ∈ sortedKeys metricsResult) ->
  l = sortedKeys metricsResult.
Proof.
  intros Hs Hnd Hel. apply (Sorted_unique String.le); try done.
  - apply sortedKeys_Sorted.
  - apply NoDup_Permutation; [done | apply sortedKeys_NoDup | done].
Qed.

Lemma labelValue_absent (res : MetricResult.t) (k : string) :
  MetricResult.Labels res !! k = None -> labelValue res k = "-".
Proof. intros Hk. unfold labelValue. by rewrite Hk. Qed.

Lemma labelValue_empty (res : MetricResult.t) (k : string) :
  MetricResult.Labels res !! k = Some "" -> labelValue res k = "-".
Proof. intros Hk. unfold labelValue. by rewrite Hk. Qed.

Lemma labelValue_present (res : MetricResult.t) (k v : string) :
  MetricResult.Labels res !! k = Some v -> v <> "" -> labelValue res k = v.
Proof.
  intros Hk Hv. unfold labelValue. rewrite Hk. simpl.
  apply is_empty_false in Hv. by rewrite Hv.
Qed.

Lemma writePoint_row (res : MetricResult.t) (keys : list string)
    (sb : string) (p : Point.t) :
  writePoint res keys sb p = sb +:+ dataRow keys res p.
Proof.
  unfold writePoint, writeLabelCells, dataRow.
  by rewrite (foldl_write (fun k => " " +:+ labelValue res k +:+ " |")),
    !string_app_assoc.
Qed.

Lemma writeSeries_rows (keys : list string) (sb : string) (res : MetricResult.t) :
  writeSeries keys sb res
  = sb +:+ String.concat "" (map (dataRow keys res) (MetricResult.Points res)).
Proof.
  unfold writeSeries. apply foldl_write_ext. intros. apply writePoint_row.
Qed.

Lemma formatMetrics_table (metricsResult : list MetricResult.t) (queryName : string) :
  metricsResult <> [] ->
  formatMetrics metricsResult queryName
  = headerLine (sortedKeys metricsResult)
      +:+ separatorLine (sortedKeys metricsResult)
      +:+ String.concat "" (dataRows (sortedKeys metricsResult) metricsResult).
Proof.
  intros Hne. unfold formatMetrics.
  destruct metricsResult as [|res rs] eqn:Hrs; [done|]. rewrite <- Hrs.
  replace (length metricsResult =? 0)%nat with false by (by rewrite Hrs).
  cbv zeta. set (keys := sortedKeys metricsResult).
  rewrite (foldl_write_ext (writeSeries keys)
             (fun res => String.concat "" (map (dataRow keys res) (MetricResult.Points res))))
    by apply writeSeries_rows.
  rewrite (foldl_write (fun k => " " +:+ k +:+ " |")).
  rewrite (foldl_write (fun _ : string => "---|")).
  unfold dataRows. rewrite concat_empty_sep_flat_map.
  unfold headerLine, separatorLine. by rewrite !string_app_assoc.
Qed.
End MetricTableFacts.

Section MetricTableClaims.
Context {golib : GoLib}.

(** X15. The sorted keys do not depend on the order in which the keys of the map
    are visited. *)
Lemma sortedKeys_any_order (metricsResult : list MetricResult.t) (l : list string) :
  l ≡ₚ elements (collectLabelKeys metricsResult) ->
  merge_sort String.le l = sortedKeys metricsResult.
Proof.
  intros Hl. apply sortedKeys_unique.
  - apply (Sorted_merge_sort String.le).
  - rewrite merge_sort_Permutation, Hl. apply NoDup_elements.
  - intros k. unfold sortedKeys. by rewrite !merge_sort_Permutation, Hl.
Qed.

(** C8. For a non-empty sequence of series, the label columns are the keys
    that occur in the label set of some series, the key [__name__] left out,
    in increasing lexicographic order and without repetition, and no other
    list has these properties; the table is the header line and the
    separator line for these columns followed by the data rows, one per
    sample, in the order of the series and of the samples within a series;
    in a row, the cell of a column is the value of the series for the key,
    and [-] when the series has no such key. *)
Theorem C8_metric_table (metricsResult : list MetricResult.t) (queryName : string) :
  metricsResult <> [] ->
  let keys := sortedKeys metricsResult in
  (forall k : string,
      k ∈ keys <->
      k <> "__name__"
      /\ exists res, res ∈ metricsResult /\ is_Some (MetricResult.Labels res !! k))
  /\ Sorted String.le keys
  /\ NoDup keys
  /\ (forall l : list string,
         Sorted String.le l -> NoDup l -> (forall k, k ∈ l <-> k ∈ keys) -> l = keys)
  /\ formatMetrics metricsResult queryName
     = headerLine keys +:+ separatorLine keys
         +:+ String.concat "" (dataRows keys metricsResult)
  /\ (forall (res : MetricResult.t) (k : string),
         MetricResult.Labels res !! k = None -> labelValue res k = "-")
  /\ (forall (res : MetricResult.t) (k v : string),
         MetricResult.Labels res !! k = Some v -> v <> "" -> labelValue res k = v).
Proof.
  intros Hne keys.
  split; [apply sortedKeys_elem|].
  split; [apply sortedKeys_Sorted|].
  split; [apply sortedKeys_NoDup|].
  split; [apply sortedKeys_unique|].
  split; [by apply formatMetrics_table|].
  split; [apply labelValue_absent | apply labelValue_present].
Qed.

(** C10 (amended). When a series maps a key to the empty string, the cell of
    that key is [-], as for the series without the key; whatever the columns
    are, the two series write the same row for every sample, and the same
    rows.  The key still makes a column, unless it is [__name__]: the table
    with the series and the table with the series without the key are the
    same text when they have the same columns, which is so when the key is
    [__name__] or another series has it; when no other series has it, the
    key is a column of the first table and not of the second. *)
Theorem C10_empty_value_as_absent (res : MetricResult.t) (k : string) :
  MetricResult.Labels res !! k = Some "" ->
  let res' :=
    MetricResult.mk (delete k (MetricResult.Labels res)) (MetricResult.Points res) in
  MetricResult.Labels res' !! k = None
  /\ labelValue res k = "-"
  /\ labelValue res' k = "-"
  /\ (forall (keys : list string) (sb : string) (p : Point.t),
         writePoint res keys sb p = writePoint res' keys sb p)
  /\ (forall (keys : list string) (sb : string),
         writeSeries keys sb res = writeSeries keys sb res')
  /\ (forall (before after : list MetricResult.t) (queryName : string),
         sortedKeys (before ++ res :: after) = sortedKeys (before ++ res' :: after) ->
         formatMetrics (before ++ res :: after) queryName
         = formatMetrics (before ++ res' :: after) queryName)
  /\ (forall before after : list MetricResult.t,
         k = "__name__"
         \/ (exists other, other ∈ before ++ after
                           /\ is_Some (MetricResult.Labels other !! k)) ->
         sortedKeys (before ++ res :: after) = sortedKeys (before ++ res' :: after))
  /\ (forall before after : list MetricResult.t,
         k <> "__name__" -> k ∈ sortedKeys (before ++ res :: after))
  /\ (forall before after : list MetricResult.t,
         (forall other, other ∈ before ++ after ->
            MetricResult.Labels other !! k = None) ->
         k ∉ sortedKeys (before ++ res' :: after)).
Proof.
  intros Hk res'.
  assert (Hnone : MetricResult.Labels res' !! k = None) by apply lookup_delete_eq.
  assert (Hval : forall k', labelValue res k' = labelValue res' k').
  { intros k'. destruct (decide (k' = k)) as [->|Hne].
    - by rewrite labelValue_empty, labelValue_absent.
    - unfold labelValue, res'. simpl. by rewrite lookup_delete_ne. }
  assert (Hrow : forall keys p, dataRow keys res p = dataRow keys res' p).
  { intros keys p. unfold dataRow.
    replace (map (fun k0 => " " +:+ labelValue res k0 +:+ " |") keys)
      with (map (fun k0 => " " +:+ labelValue res' k0 +:+ " |") keys); [done|].
    apply map_ext. intros k'. by rewrite Hval. }
  split; [done|]. split; [by apply labelValue_empty|].
  assert (Hrows : forall keys,
             map (dataRow keys res') (MetricResult.Points res')
             = map (dataRow keys res) (MetricResult.Points res)).
  { intros keys. apply map_ext. intros p. by rewrite Hrow. }
  split; [by apply labelValue_absent|].
  split; [|split; [|split; [|split; [|split]]]].
  - intros keys sb p. by rewrite !writePoint_row, Hrow.
  - intros keys sb. by rewrite !writeSeries_rows, Hrows.
  - intros before after queryName Hkeys.
    rewrite !formatMetrics_table by (by destruct before).
    rewrite Hkeys. unfold dataRows.
    rewrite !flat_map_app. cbn [flat_map]. by rewrite Hrows.
  - intros before after Hsame. symmetry. apply sortedKeys_unique.
    + apply sortedKeys_Sorted.
    + apply sortedKeys_NoDup.
    + intros k'. rewrite !sortedKeys_elem. split.
      * intros (Hne & r & Hr & Hsome). split; [done|].
        apply elem_of_app in Hr as [Hr|Hr].
        -- exists r. split; [|done]. apply elem_of_app. by left.
        -- apply elem_of_cons in Hr as [->|Hr].
           ++ exists res. split; [apply elem_of_app; right; left|].
              destruct (decide (k' = k)) as [->|Hkk]; [by rewrite Hk|].
              unfold res' in Hsome. cbn [MetricResult.Labels] in Hsome.
              by rewrite lookup_delete_ne in Hsome.
           ++ exists r. split; [|done]. apply elem_of_app. right. by right.
      * intros (Hne & r & Hr & Hsome). split; [done|].
        apply elem_of_app in Hr as [Hr|Hr].
        -- exists r. split; [|done]. apply elem_of_app. by left.
        -- apply elem_of_cons in Hr as [->|Hr].
           ++ destruct (decide (k' = k)) as [->|Hkk].
              ** destruct Hsame as [->|(other & Hother & Hos)]; [done|].
                 exists other. split; [|done].
                 apply elem_of_app in Hother as [?|?]; apply elem_of_app;
                   [by left | right; by right].
              ** exists res'. split; [apply elem_of_app; right; left|].
                 unfold res'. cbn [MetricResult.Labels].
                 by rewrite lookup_delete_ne.
           ++ exists r. split; [|done]. apply elem_of_app. right. by right.
  - intros before after Hne. apply sortedKeys_elem. split; [done|].
    exists res. split; [apply elem_of_app; right; left | by rewrite Hk].
  - intros before after Hothers Hin.
    apply sortedKeys_elem in Hin as (_ & r & Hr & Hsome).
    apply elem_of_app in Hr as [Hr|Hr].
    + rewrite Hothers in Hsome by (apply elem_of_app; by left).
      by destruct Hsome.
    + apply elem_of_cons in Hr as [->|Hr].
      * rewrite Hnone in Hsome. by destruct Hsome.
      * rewrite Hothers in Hsome by (apply elem_of_app; by right).
        by destruct Hsome.
Qed.
End MetricTableClaims.

Lemma C8_metric_table_witness :
  formatMetrics (golib := Sample.golib) [Sample.series1; Sample.series2] "up"
  = String.concat nl
      [ "| Timestamp | Value | Pod | app | pod | zone |";
        "|---|---|---|---|---|---|";
        "| T10 | 1.0000 | - | - | a | - |";
        "| T20 | 2.0000 | - | - | a | - |";
        "| T5 | 1.0000 | b | x | - | - |";
        "" ].
Proof.
  destruct (C8_metric_table (golib := Sample.golib)
              [Sample.series1; Sample.series2] "up") as (_ & _ & _ & _ & Htab & _).
  - discriminate.
  - etrans; [exact Htab | vm_compute; reflexivity].
Defined.

Lemma C10_empty_value_as_absent_witness :
  writeSeries (golib := Sample.golib) ["pod"; "zone"] "" Sample.series1
  = String.concat nl
      [ "| T10 | 1.0000 | a | - |";
        "| T20 | 2.0000 | a | - |";
        "" ].
Proof.
  destruct (C10_empty_value_as_absent (golib := Sample.golib) Sample.series1 "zone")
    as (_ & _ & _ & _ & Hseries & _).
  - vm_compute. reflexivity.
  - etrans; [apply Hseries | vm_compute; reflexivity].
Defined.

(** C10 as stated fails for a series that alone has the key: with the empty
    value the table has the column of the key, without the key it has not,
    and the two outputs differ. *)
Lemma C10_counterexample :
  MetricResult.Labels SampleMore.empty_zone !! "zone" = Some ""
  /\ formatMetrics (golib := Sample.golib) [SampleMore.empty_zone] "up"
     = String.concat nl
         [ "| Timestamp | Value | zone |"; "|---|---|---|";
           "| T10 | 1.0000 | - |"; "" ]
  /\ formatMetrics (golib := Sample.golib) [SampleMore.no_zone] "up"
     = String.concat nl
         [ "| Timestamp | Value |"; "|---|---|"; "| T10 | 1.0000 |"; "" ]
  /\ formatMetrics (golib := Sample.golib) [SampleMore.empty_zone] "up"
     <> formatMetrics (golib := Sample.golib) [SampleMore.no_zone] "up".
Proof.
  split; [vm_compute; reflexivity|]. split; [vm_compute; reflexivity|].
  split; [vm_compute; reflexivity|]. vm_compute. discriminate.
Qed.

(** * Further properties of the handlers *)

(** ** The query builder and the component table *)

Lemma join_cons_cons (sep x y : string) (l : list string) :
  String.concat sep (x :: y :: l) = x +:+ sep +:+ String.concat sep (y :: l).
Proof. reflexivity. Qed.

Lemma join_merge_head (sep x y : string) (l : list string) :
  String.concat sep ((x +:+ sep +:+ y) :: l) = String.concat sep (x :: y :: l).
Proof.
  destruct l as [|z l]; [done|].
  by rewrite !join_cons_cons, !string_app_assoc.
Qed.

Section GetComponentsMore.
Import GetComponentsParams.

Lemma buildQuery_neighbors_ok (params : t) :
  WithNeighbors params = true ->
  Query params = "" ->
  baseQuery params <> "" ->
  (if decide (WithNeighborsDirection params = "") then "both"
   else WithNeighborsDirection params) ∈ validDirections ->
  exists query, buildQuery params = Ok query.
Proof.
  intros Hn Hq Hbase Hdir. unfold buildQuery.
  apply is_empty_true in Hq. apply is_empty_false in Hbase.
  rewrite Hq, Hn, Hbase, !is_empty_decide.
  rewrite bool_decide_eq_true_2 by done. cbn [negb].
  rewrite neighborsQuery_rewrite.
  destruct (is_empty (rewrite_neighbors _ _ _)) eqn:He; [|by eexists].
  apply is_empty_true in He. unfold rewrite_neighbors in He.
  apply is_empty_false in Hbase. by apply string_app_nonempty_l in He.
Qed.

(** X1. [buildQuery] succeeds exactly when there is a raw query, or some named
    filter is set and, if neighbours are asked for, the direction (or its
    default [both]) is a valid one; the query it gives is never empty, so
    that [GetComponents] makes no request at all or one topology query with
    a non-empty expression. *)
Theorem buildQuery_ok_iff {W} (h : handler W) (w : W) (params : t) :
  let direction :=
    if decide (WithNeighborsDirection params = "") then "both"
    else WithNeighborsDirection params in
  ((exists query, buildQuery params = Ok query) <->
   Query params <> ""
   \/ (baseQuery params <> ""
       /\ (WithNeighbors params = true -> direction ∈ validDirections)))
  /\ (forall query, buildQuery params = Ok query -> query <> "")
  /\ (run_trace h (GetComponents params) w = []
      \/ exists query,
          query <> ""
          /\ run_trace h (GetComponents params) w
             = [Req (SnapShotTopologyQuery query)]).
Proof.
  intros direction.
  assert (Hne : forall query, buildQuery params = Ok query -> query <> "").
  { intros query. unfold buildQuery.
    destruct (match is_empty (Query params) with true => _ | false => _ end)
      as [q|msg]; [|done].
    destruct (is_empty q) eqn:Hq; [done|].
    intros [= <-]. by apply is_empty_false. }
  split; [|split; [done|]].
  - destruct (decide (Query params = "")) as [Hq|Hq].
    + split.
      * intros [query Hb]. right.
        assert (Hbase : baseQuery params <> "").
        { intros Hbase. revert Hb. unfold buildQuery.
          apply is_empty_true in Hq. rewrite Hq, Hbase.
          by destruct (WithNeighbors params). }
        split; [done|]. intros Hn.
        destruct (decide (direction ∈ validDirections)) as [|Hdir]; [done|].
        revert Hb. unfold buildQuery.
        apply is_empty_true in Hq. apply is_empty_false in Hbase.
        rewrite Hq, Hn, Hbase, !is_empty_decide. fold direction.
        by rewrite bool_decide_eq_false_2.
      * intros [?|[Hbase Hdir]]; [done|].
        destruct (WithNeighbors params) eqn:Hn.
        -- destruct (buildQuery_neighbors_ok params Hn Hq Hbase (Hdir eq_refl))
             as [query Hb]. by exists query.
        -- exists (baseQuery params). rewrite buildQuery_filters by done.
           apply is_empty_false in Hbase. by rewrite Hbase.
    + split; [by left|]. intros _. exists (Query params). by apply buildQuery_raw.
  - destruct (buildQuery params) as [query|msg] eqn:Hb.
    + right. exists query. split; [by apply Hne|].
      by apply GetComponents_trace_ok.
    + left. unfold run_trace, GetComponents. by rewrite Hb.
Qed.
End GetComponentsMore.

Lemma buildQuery_ok_iff_witness :
  buildQuery Sample.redis_down <> Ok ""
  /\ ~ (exists query, buildQuery Sample.pods_sideways = Ok query).
Proof.
  destruct (buildQuery_ok_iff Sample.backend 0%nat Sample.redis_down)
    as (_ & Hne & _).
  destruct (buildQuery_ok_iff Sample.backend 0%nat Sample.pods_sideways)
    as (Hiff & _ & _).
  split.
  - intros Hb. by apply Hne in Hb.
  - intros Hex. apply Hiff in Hex as [Hq|[_ Hdir]]; [done|].
    specialize (Hdir eq_refl). apply validDirections_spec in Hdir.
    vm_compute in Hdir. by destruct Hdir as [?|[?|?]].
Defined.

Section QuoteCollision.
Import GetComponentsParams.

(** X2. Filter values are put between quotes as they are.  A name pattern that
    contains a quote, [AND type =] and a quote gives the very query of the
    call that sets the two parts as name pattern and as type: the backend
    cannot tell the two calls apart. *)
Theorem buildQuery_quote_collision (v1 v2 layer domain healthstate : string)
    (withNeighbors : bool) (levels direction : string) :
  v1 <> "" -> v2 <> "" ->
  buildQuery
    (mk "" (v1 +:+ dquote +:+ " AND type = " +:+ dquote +:+ v2) ""
        layer domain healthstate withNeighbors levels direction)
  = buildQuery
      (mk "" v1 v2 layer domain healthstate withNeighbors levels direction).
Proof.
  intros Hv1 Hv2.
  set (p := mk "" (v1 +:+ dquote +:+ " AND type = " +:+ dquote +:+ v2) ""
              layer domain healthstate withNeighbors levels direction).
  set (p' := mk "" v1 v2 layer domain healthstate withNeighbors levels direction).
  assert (Hbase : baseQuery p = baseQuery p').
  { rewrite !baseQuery_join. unfold queryParts, p, p'.
    cbn [NamePattern Type_ Layer Domain HealthState].
    assert (Hn : is_empty (v1 +:+ dquote +:+ " AND type = " +:+ dquote +:+ v2) = false).
    { apply is_empty_false. by apply string_app_nonempty_l. }
    apply is_empty_false in Hv1. apply is_empty_false in Hv2.
    rewrite Hn, Hv1, Hv2. change (is_empty "") with true. cbn iota.
    assert (Hc : clause "name" (v1 +:+ dquote +:+ " AND type = " +:+ dquote +:+ v2)
                 = clause "name" v1 +:+ " AND " +:+ clause "type" v2).
    { unfold clause. by rewrite !string_app_assoc. }
    unfold strings_Join.
    destruct (is_empty layer), (is_empty domain), (is_empty healthstate);
      cbn [app]; by rewrite Hc, join_merge_head. }
  unfold buildQuery. cbn [Query WithNeighbors WithNeighborsLevels
    WithNeighborsDirection p p']. by rewrite Hbase.
Qed.

(** X3. When the topology query returns components, the text is the summary
    line with their number, the header, and one line per component in the
    order of the answer, with its name, type, identifier and at most two of
    its identifiers. *)
Theorem GetComponents_table {W} (h : handler W) (w : W) (params : t)
    (query : string) (components : list ViewComponent.t) :
  buildQuery params = Ok query ->
  (h _ (SnapShotTopologyQuery query) w).1 = Ok components ->
  components <> [] ->
  run_value h (GetComponents params) w
  = Ok (componentsSummary params (length components) +:+ componentsHeader
          +:+ String.concat ""
                (map (fun c =>
                        "| " +:+ ViewComponent.Name c +:+ " | "
                          +:+ ViewComponent.InternalType c +:+ " | "
                          +:+ fmt_d (ViewComponent.ID c) +:+ " | "
                          +:+ identifiersStr (ViewComponent.Identifiers c)
                          +:+ " |" +:+ nl)
                     components))
  /\ identifiersStr [] = "-"
  /\ (forall a, identifiersStr [a] = a)
  /\ (forall a b, identifiersStr [a; b] = a +:+ ", " +:+ b)
  /\ (forall a b c rest,
         identifiersStr (a :: b :: c :: rest) = a +:+ ", " +:+ b +:+ "...").
Proof.
  intros Hb Hans Hne.
  split; [|repeat split; intros; unfold identifiersStr, strings_Join; simpl;
           by rewrite ?string_app_assoc].
  unfold run_value, GetComponents. rewrite Hb, run_bind, run_perform, Hans.
  cbn [run fst]. f_equal. unfold formatComponentsTable.
  destruct components as [|c cs] eqn:Hcs; [done|]. rewrite <- Hcs.
  replace (length (simplifyViewComponents components) =? 0)%nat with false
    by (by rewrite Hcs).
  cbv zeta. rewrite foldl_write. unfold simplifyViewComponents.
  rewrite length_map, map_map.
  unfold componentsSummary, componentsHeader.
  destruct (decide (Query params = "")) as [Hq|Hq].
  - pose proof (proj2 (is_empty_true _) Hq) as He. rewrite He. cbn [negb].
    destruct (summaryFilters params) as [|f fs] eqn:Hf.
    + change (0 <? length [])%nat with false. rewrite decide_True by done.
      rewrite ?string_app_assoc. reflexivity.
    + change (0 <? length (f :: fs))%nat with true. rewrite decide_False by done.
      rewrite ?string_app_assoc. reflexivity.
  - pose proof (proj2 (is_empty_false _) Hq) as He. rewrite He. cbn [negb].
    rewrite ?string_app_assoc. reflexivity.
Qed.
End QuoteCollision.

Lemma buildQuery_quote_collision_witness :
  buildQuery SampleMore.quoted = buildQuery SampleMore.plain.
Proof.
  apply (buildQuery_quote_collision "redis" "pod" "" "" "" false "" "");
    vm_compute; discriminate.
Defined.

Lemma GetComponents_table_witness :
  run_value Sample.backend (GetComponents Sample.redis_down) 0%nat
  = Ok (String.concat nl
          [ "Found 1 component(s) (name: redis*):";
            "";
            "| Component Name | Type | ID | Identifiers |";
            "|---|---|---|---|";
            "| redis-0 | pod | 12 | urn:a, urn:b... |";
            "" ]).
Proof.
  destruct (GetComponents_table Sample.backend 0%nat Sample.redis_down
              (rewrite_neighbors (baseQuery Sample.redis_down) "1" "down")
              [ViewComponent.mk 12 "redis-0" "pod" ["urn:a"; "urn:b"; "urn:c"] [] []])
    as [Hrun _].
  - vm_compute. reflexivity.
  - vm_compute. reflexivity.
  - discriminate.
  - etrans; [exact Hrun | vm_compute; reflexivity].
Defined.

(** ** The monitor rows *)

Lemma string_length_app (s t : string) :
  String.length (s +:+ t) = (String.length s + String.length t)%nat.
Proof. induction s as [|a s IH]; [done|]. rewrite string_app_cons. simpl. by rewrite IH. Qed.

Lemma string_length_substring (n : nat) (s : string) :
  String.length (String.substring 0 n s) = Nat.min n (String.length s).
Proof.
  revert n. induction s as [|a s IH]; intros [|n]; simpl; try done.
  by rewrite IH.
Qed.

Lemma string_prefix_substring (n : nat) (s : string) :
  String.prefix (String.substring 0 n s) s = true.
Proof.
  revert n. induction s as [|a s IH]; intros [|n]; simpl; try done.
  destruct (Ascii.ascii_dec a a); [apply IH | done].
Qed.

Lemma length_remove_dups_le (l : list string) :
  (length (remove_dups l) <= length l)%nat.
Proof.
  induction l as [|x l IH]; [done|]. cbn [remove_dups].
  destruct (decide_rel elem_of x l); simpl; lia.
Qed.

Section MonitorRowsMore.
Import GetMonitorsParams.

(** X4. The description cell of a rendered row is never empty and never longer
    than 50 bytes: an empty description is written [-], one of at most 50
    bytes as it is, and a longer one as its first 47 bytes followed by three
    dots. *)
Theorem renderRow_description (row : MonitorRow.t) :
  let desc := MonitorRow.Description row in
  let cell := descriptionCell desc in
  renderRow row
  = "| " +:+ MonitorRow.Name row +:+ " | " +:+ cell +:+ " | "
      +:+ fmt_d (MonitorRow.AffectedCount row) +:+ " | "
      +:+ MonitorRow.AffectedComponent row +:+ " |" +:+ nl
  /\ (1 <= String.length cell <= 50)%nat
  /\ (desc = "" -> cell = "-")
  /\ (desc <> "" -> (String.length desc <= 50)%nat -> cell = desc)
  /\ ((50 < String.length desc)%nat ->
      cell = String.substring 0 47 desc +:+ "..."
      /\ String.length cell = 50%nat
      /\ String.prefix (String.substring 0 47 desc) desc = true).
Proof.
  intros desc cell.
  assert (Hlong : (50 < String.length desc)%nat ->
                  cell = String.substring 0 47 desc +:+ "..."
                  /\ String.length cell = 50%nat).
  { intros Hlen. unfold cell, descriptionCell.
    rewrite decide_False by (intros ->; simpl in Hlen; lia).
    rewrite decide_True by done. split; [done|].
    rewrite string_length_app, string_length_substring.
    change (String.length "...") with 3%nat. lia. }
  split; [|split; [|split; [|split]]].
  - unfold renderRow. fold desc. unfold cell, descriptionCell.
    rewrite is_empty_decide.
    destruct (decide (desc = "")) as [->|Hne]; [done|].
    destruct (Nat.ltb_spec 50 (String.length desc)).
    + by rewrite decide_True.
    + by rewrite decide_False by lia.
  - destruct (decide (50 < String.length desc)%nat) as [Hlen|Hlen].
    + destruct (Hlong Hlen) as [_ ->]. lia.
    + unfold cell, descriptionCell.
      destruct (decide (desc = "")) as [->|Hne]; [simpl; lia|].
      rewrite decide_False by done. destruct desc; [done|]. simpl in *. lia.
  - intros ->. done.
  - intros Hne Hlen. unfold cell, descriptionCell.
    rewrite decide_False by done. by rewrite decide_False by lia.
  - intros Hlen. destruct (Hlong Hlen) as [-> Hl].
    split; [done|]. split; [done|]. apply string_prefix_substring.
Qed.

(** X5. A monitor adds at least one row and at most six, whatever the lookup
    answers, and each of them carries the name of the monitor and its
    counter; so the table has at most six rows per monitor with a non-zero
    counter. *)
Theorem monitorRows_bounds (monitor : Monitor.t) (count : Z)
    (resp : result CheckStates.t) :
  (1 <= length (monitorRows monitor count resp) <= 6)%nat
  /\ (forall row, row ∈ monitorRows monitor count resp ->
        MonitorRow.Name row = Monitor.Name monitor
        /\ MonitorRow.AffectedCount row = count)
  /\ (forall (state : string) (Q : list MonitorOverview.t)
        (resps : list (result CheckStates.t)),
         (length (concat (zip_with (monitorBlock state) Q resps))
          <= 6 * length Q)%nat).
Proof.
  assert (Hlen : forall m c r, (1 <= length (monitorRows m c r) <= 6)%nat).
  { intros m c r. unfold monitorRows. destruct r as [cs|e]; [|simpl; lia].
    destruct (length (CheckStates.States cs) =? 0)%nat eqn:H0; [simpl; lia|].
    apply Nat.eqb_neq in H0.
    rewrite length_app, detailRows_take, length_map, length_take.
    unfold maxComponents.
    replace (5 - 0)%nat with 5%nat by done.
    destruct (5 <? length (CheckStates.States cs))%nat; cbn [length]; lia. }
  split; [apply Hlen|]. split.
  - intros row Hrow. split; [by eapply monitorRows_names|].
    revert Hrow. unfold monitorRows. destruct resp as [cs|e].
    + destruct (length (CheckStates.States cs) =? 0)%nat.
      * by intros ->%list_elem_of_singleton.
      * rewrite detailRows_take, elem_of_app, list_elem_of_fmap.
        intros [(x & -> & _)|Hin]; [done|].
        destruct (maxComponents <? _)%nat.
        -- by apply list_elem_of_singleton in Hin as ->.
        -- by apply elem_of_nil in Hin.
    + by intros ->%list_elem_of_singleton.
  - intros state Q. induction Q as [|mo Q IH]; intros [|r resps]; simpl; try lia.
    rewrite length_app. specialize (IH resps). unfold monitorBlock at 1.
    specialize (Hlen (MonitorOverview.Monitor mo)
                  (stateCount state (MonitorOverview.RuntimeMetrics mo)) r).
    lia.
Qed.

(** X6. [GetMonitors] asks the backend for the overview and then for the check
    states of each monitor with a non-zero counter, in the order of the
    overview, by its identifier in decimal, for the state asked, with page
    size 10 and offset 0; no other request is made, and none for a monitor
    with a zero counter. *)
Theorem GetMonitors_requests {W} (h : handler W) (w : W) (params : t)
    (overview : MonitorsOverview.t) :
  let state := effectiveState params in
  let Q := qualifying state (MonitorsOverview.Monitors overview) in
  state ∈ validStates ->
  (h _ GetMonitorsOverview w).1 = Ok overview ->
  run_trace h (GetMonitors params) w
  = Req GetMonitorsOverview
      :: map (fun mo =>
                Req (GetMonitorCheckStates
                       (fmt_d (Monitor.Id (MonitorOverview.Monitor mo))) state 10 0))
             Q
  /\ length (run_trace h (GetMonitors params) w) = S (length Q)
  /\ (length Q <= length (MonitorsOverview.Monitors overview))%nat.
Proof.
  intros state Q Hst Hov.
  assert (Htr : run_trace h (GetMonitors params) w
                = Req GetMonitorsOverview
                    :: map (fun mo => Req (lookupCall state mo)) Q).
  { unfold run_trace. rewrite (GetMonitors_run h w params overview) by done.
    cbn [snd]. by rewrite map_map. }
  split; [exact Htr|]. split.
  - rewrite Htr. cbn [length]. by rewrite length_map.
  - unfold Q, qualifying. apply filter_length_le.
Qed.

(** X7. When no monitor of the overview has a non-zero counter for the state,
    in particular when the overview is empty, [GetMonitors] returns the text
    [No monitors in <state> state found.] after the overview request alone. *)
Theorem GetMonitors_none {W} (h : handler W) (w : W) (params : t)
    (overview : MonitorsOverview.t) :
  let state := effectiveState params in
  state ∈ validStates ->
  (h _ GetMonitorsOverview w).1 = Ok overview ->
  (forall mo, mo ∈ MonitorsOverview.Monitors overview ->
     stateCount state (MonitorOverview.RuntimeMetrics mo) = 0%Z) ->
  run h (GetMonitors params) w
  = (Ok ("No monitors in " +:+ state +:+ " state found."),
     (h _ GetMonitorsOverview w).2, [Req GetMonitorsOverview]).
Proof.
  intros state Hst Hov Hzero.
  assert (HQ : qualifying state (MonitorsOverview.Monitors overview) = []).
  { destruct (qualifying state _) as [|mo Q] eqn:HQ; [done|].
    assert (Hmo : mo ∈ qualifying state (MonitorsOverview.Monitors overview))
      by (rewrite HQ; left).
    apply qualifying_elem in Hmo as [Hin Hne]. by apply Hzero in Hin. }
  rewrite (GetMonitors_run h w params overview) by done. fold state.
  by rewrite HQ.
Qed.

(** X8. In a rendered table the monitor count of the summary line is at least
    one and at most the number of monitors with a non-zero counter: names
    that collide lower the count, nothing raises it. *)
Theorem monitorCount_bounds (state : string) (Q : list MonitorOverview.t)
    (resps : list (result CheckStates.t)) :
  length resps = length Q ->
  Q <> [] ->
  (1 <= monitorCount (concat (zip_with (monitorBlock state) Q resps))
   <= Z.of_nat (length Q))%Z.
Proof.
  intros Hlen HQ. rewrite monitorCount_distinct, distinct_size, block_names by done.
  rewrite <- distinct_size. unfold distinct. split.
  - destruct Q as [|mo Q']; [done|].
    assert (Hin : monitorName mo ∈ remove_dups (map monitorName (mo :: Q'))).
    { apply elem_of_remove_dups. left. }
    destruct (remove_dups _); [by apply elem_of_nil in Hin | simpl; lia].
  - apply inj_le. rewrite <- (length_map monitorName Q).
    apply length_remove_dups_le.
Qed.
End MonitorRowsMore.

Lemma renderRow_description_witness :
  renderRow (MonitorRow.mk "cpu" SampleMore.long_description 3 "-")
  = "| cpu | 01234567890123456789012345678901234567890123456... | 3 | - |" +:+ nl.
Proof.
  refine (eq_trans
            (proj1 (renderRow_description
                      (MonitorRow.mk "cpu" SampleMore.long_description 3 "-"))) _).
  vm_compute. reflexivity.
Defined.

Lemma monitorRows_bounds_witness :
  length (monitorRows (MonitorOverview.Monitor Sample.cpu) 7 (Ok Sample.eight))
  = 6%nat.
Proof.
  pose proof (proj1 (monitorRows_bounds (MonitorOverview.Monitor Sample.cpu) 7
                       (Ok Sample.eight))) as [_ Hle].
  apply Nat.le_antisymm; [exact Hle | vm_compute; lia].
Defined.

Lemma GetMonitors_requests_witness :
  run_trace Sample.backend (GetMonitors (GetMonitorsParams.mk "")) 0%nat
  = [ Req GetMonitorsOverview;
      Req (GetMonitorCheckStates "2" "CRITICAL" 10 0);
      Req (GetMonitorCheckStates "3" "CRITICAL" 10 0) ].
Proof.
  destruct (GetMonitors_requests Sample.backend 0%nat (GetMonitorsParams.mk "")
              Sample.overview) as [Htr _].
  - apply validStates_spec. vm_compute. auto.
  - reflexivity.
  - etrans; [exact Htr | vm_compute; reflexivity].
Defined.

Lemma GetMonitors_none_witness :
  run Sample.backend (GetMonitors (GetMonitorsParams.mk "UNKNOWN")) 0%nat
  = (Ok "No monitors in UNKNOWN state found.", 1%nat, [Req GetMonitorsOverview]).
Proof.
  refine (eq_trans
            (GetMonitors_none Sample.backend 0%nat (GetMonitorsParams.mk "UNKNOWN")
               Sample.overview _ _ _) _).
  - apply validStates_spec. vm_compute. auto.
  - reflexivity.
  - intros mo Hmo. vm_compute in Hmo.
    repeat (apply elem_of_cons in Hmo as [->|Hmo]; [reflexivity|]).
    by apply elem_of_nil in Hmo.
  - vm_compute. reflexivity.
Defined.

Lemma monitorCount_bounds_witness :
  (1 <= monitorCount
          (concat (zip_with (monitorBlock "CRITICAL")
                     (MonitorsOverview.Monitors Sample.twins)
                     [Err "lookup failed"; Ok (CheckStates.mk [])]))
   <= 2)%Z.
Proof.
  apply (monitorCount_bounds "CRITICAL" (MonitorsOverview.Monitors Sample.twins)
           [Err "lookup failed"; Ok (CheckStates.mk [])]).
  - reflexivity.
  - discriminate.
Defined.

(** ** The metric listing and the range query *)

Lemma neg_Duration_spec (d : Z) :
  ((- 2 ^ 63 < d < 2 ^ 63)%Z -> neg_Duration d = (- d)%Z)
  /\ (d = (- 2 ^ 63)%Z -> neg_Duration d = (- 2 ^ 63)%Z).
Proof.
  unfold neg_Duration, int64_wrap. split.
  - intros Hd. rewrite Z.mod_small by lia. lia.
  - intros ->. reflexivity.
Qed.

Section MetricsMore.
Context {golib : GoLib}.

Lemma parseTime_timeOf {W} (h : handler W) (s : string) (w : W) :
  parses s ->
  run h (parseTime s) w
  = (Ok (timeOf s (h _ time_Now w).1), (h _ time_Now w).2, [Req time_Now]).
Proof.
  intros Hs. unfold parseTime, timeOf.
  destruct (String.eqb_spec s "now") as [->|Hne].
  - rewrite decide_True by done. by rewrite run_bind, run_perform.
  - rewrite decide_False by done.
    destruct Hs as [?|[d Hd]]; [done|]. rewrite Hd.
    by rewrite run_bind, run_perform.
Qed.

(** X9. Once the names are listed and the pattern compiled, [ListMetrics] asks
    for the labels of the matching names in the order of the listing, and of
    the first 50 of them only: whatever the number of matches, at most 50
    label lookups follow the clock read and the listing request. *)
Theorem ListMetrics_lookup_cap {W} (h : handler W) (w : W)
    (params : ListMetricsParams.t) (metrics : list string) (re : Regexp) :
  let pattern := ListMetricsParams.SearchPattern params in
  let end_ := (h _ time_Now w).1 in
  let w1 := (h _ time_Now w).2 in
  let start := (end_ + (-1) * time_Hour)%Z in
  let filteredMetrics := List.filter (MatchString re) metrics in
  pattern <> "" ->
  (h _ (ClientListMetrics start end_) w1).1 = Ok metrics ->
  regexp_Compile pattern = Ok re ->
  run_trace h (ListMetrics params) w
  = Req time_Now :: Req (ClientListMetrics start end_)
      :: map (fun metricName => Req (GetMetricLabels metricName start end_))
             (take 50 filteredMetrics)
  /\ length (take 50 filteredMetrics) = Nat.min 50 (length filteredMetrics)
  /\ (length (run_trace h (ListMetrics params) w) <= 52)%nat.
Proof.
  intros pattern end_ w1 start filteredMetrics Hp Hlist Hre.
  assert (Htr : run_trace h (ListMetrics params) w
                = Req time_Now :: Req (ClientListMetrics start end_)
                    :: map (fun metricName => Req (GetMetricLabels metricName start end_))
                         (take 50 filteredMetrics)).
  { unfold run_trace. rewrite (ListMetrics_listing h w params) by done.
    fold pattern end_ w1 start. rewrite Hlist, Hre. cbv zeta.
    fold filteredMetrics.
    destruct filteredMetrics as [|m ms] eqn:Hf; [done|].
    cbn [length Nat.eqb snd]. by rewrite map_map. }
  split; [exact Htr|]. split; [apply length_take|].
  rewrite Htr. cbn [length]. rewrite length_map, length_take. lia.
Qed.

(** X10. When no listed name matches the pattern, in particular when the backend
    lists no name, [ListMetrics] returns the text [No metrics found matching
    '<pattern>'.] and looks no label up. *)
Theorem ListMetrics_no_match {W} (h : handler W) (w : W)
    (params : ListMetricsParams.t) (metrics : list string) (re : Regexp) :
  let pattern := ListMetricsParams.SearchPattern params in
  let end_ := (h _ time_Now w).1 in
  let w1 := (h _ time_Now w).2 in
  let start := (end_ + (-1) * time_Hour)%Z in
  pattern <> "" ->
  (h _ (ClientListMetrics start end_) w1).1 = Ok metrics ->
  regexp_Compile pattern = Ok re ->
  (forall m, m ∈ metrics -> MatchString re m = false) ->
  run h (ListMetrics params) w
  = (Ok ("No metrics found matching '" +:+ pattern +:+ "'."),
     (h _ (ClientListMetrics start end_) w1).2,
     [Req time_Now; Req (ClientListMetrics start end_)]).
Proof.
  intros pattern end_ w1 start Hp Hlist Hre Hnone.
  rewrite (ListMetrics_listing h w params) by done.
  fold pattern end_ w1 start. rewrite Hlist, Hre. cbv zeta.
  assert (Hf : List.filter (MatchString re) metrics = []).
  { clear Hlist. induction metrics as [|m ms IH]; [done|]. cbn [List.filter].
    rewrite (Hnone m) by left. apply IH. intros m' Hm'. apply Hnone. by right. }
  by rewrite Hf.
Qed.

(** X11. A failure of the first backend request ends a handler: the error is
    the failure under the handler's prefix, with the query for
    [GetComponents], and no lookup follows in [GetMonitors] and
    [ListMetrics]; [QueryRangeMetric] reports the failure of its query the
    same way. *)
Theorem primary_failure {W} (h : handler W) (w : W) (e : string) :
  (forall (params : GetComponentsParams.t) (query : string),
      buildQuery params = Ok query ->
      (h _ (SnapShotTopologyQuery query) w).1 = Err e ->
      run h (GetComponents params) w
      = (Err ("failed to query topology (STQL: " +:+ query +:+ "): " +:+ e),
         (h _ (SnapShotTopologyQuery query) w).2,
         [Req (SnapShotTopologyQuery query)]))
  /\ (forall params : GetMonitorsParams.t,
         effectiveState params ∈ validStates ->
         (h _ GetMonitorsOverview w).1 = Err e ->
         run h (GetMonitors params) w
         = (Err ("failed to get monitors overview: " +:+ e),
            (h _ GetMonitorsOverview w).2, [Req GetMonitorsOverview]))
  /\ (forall params : ListMetricsParams.t,
         let end_ := (h _ time_Now w).1 in
         let w1 := (h _ time_Now w).2 in
         let start := (end_ + (-1) * time_Hour)%Z in
         ListMetricsParams.SearchPattern params <> "" ->
         (h _ (ClientListMetrics start end_) w1).1 = Err e ->
         run h (ListMetrics params) w
         = (Err ("failed to list metrics: " +:+ e),
            (h _ (ClientListMetrics start end_) w1).2,
            [Req time_Now; Req (ClientListMetrics start end_)]))
  /\ (forall params : QueryRangeMetricParams.t,
         parses (QueryRangeMetricParams.Start params) ->
         parses (QueryRangeMetricParams.End_ params) ->
         (forall (start end_ : Time) (step : string) (w' : W),
             (h _ (ClientQueryRangeMetric (QueryRangeMetricParams.Query params)
                     start end_ step "30s") w').1 = Err e) ->
         run_value h (QueryRangeMetric params) w
         = Err ("failed to query range metri c: " +:+ e)).
Proof.
  split; [|split; [|split]].
  - intros params query Hb Hans. unfold GetComponents.
    by rewrite Hb, run_bind, run_perform, Hans.
  - intros params Hst Hov. unfold GetMonitors.
    rewrite bool_decide_eq_true_2 by done. cbn [negb].
    by rewrite run_bind, run_perform, Hov.
  - intros params end_ w1 start Hp Hlist.
    rewrite (ListMetrics_listing h w params) by done.
    fold end_ w1 start. by rewrite Hlist.
  - intros params Hs He Hfail.
    destruct (QueryRangeMetric_value h w params Hs He) as (start & end_ & step & w2 & ->).
    by rewrite Hfail.
Qed.

(** X12. The time arguments of [QueryRangeMetric] are checked in turn before the
    backend is asked.  A start that is neither [now] nor a duration fails
    the call at once; with a good start, an end that is neither fails it
    after one read of the clock.  The error names the argument and quotes
    its text, and no request goes to the backend. *)
Theorem QueryRangeMetric_time_errors {W} (h : handler W) (w : W)
    (params : QueryRangeMetricParams.t) :
  (~ parses (QueryRangeMetricParams.Start params) ->
   run h (QueryRangeMetric params) w
   = (Err ("failed to parse start time: invalid time format: "
             +:+ QueryRangeMetricParams.Start params
             +:+ " (expected 'now' or duration like '1h')"), w, []))
  /\ (parses (QueryRangeMetricParams.Start params) ->
      ~ parses (QueryRangeMetricParams.End_ params) ->
      run h (QueryRangeMetric params) w
      = (Err ("failed to parse end time: invalid time format: "
                +:+ QueryRangeMetricParams.End_ params
                +:+ " (expected 'now' or duration like '1h')"),
         (h _ time_Now w).2, [Req time_Now])).
Proof.
  split.
  - intros Hs. unfold QueryRangeMetric.
    by rewrite run_bind, parseTime_invalid.
  - intros Hs He. unfold QueryRangeMetric.
    rewrite run_bind, parseTime_timeOf by done.
    by rewrite run_bind, parseTime_invalid.
Qed.

(** X13. With time arguments that parse, [QueryRangeMetric] reads the clock once
    for the start and once for the end and sends one range query: [now] is
    the clock's reading, and a duration [d] is the reading plus [-d] as Go
    computes it on 64 bits, that is [d] before the reading, but for the least
    duration, which is its own opposite; the step is [1m] when none is given,
    and the timeout is [30s].  The text returned is the table of the series
    of the answer. *)
Theorem QueryRangeMetric_request {W} (h : handler W) (w : W)
    (params : QueryRangeMetricParams.t) :
  let now1 := (h _ time_Now w).1 in
  let w1 := (h _ time_Now w).2 in
  let now2 := (h _ time_Now w1).1 in
  let w2 := (h _ time_Now w1).2 in
  let request :=
    ClientQueryRangeMetric (QueryRangeMetricParams.Query params)
      (timeOf (QueryRangeMetricParams.Start params) now1)
      (timeOf (QueryRangeMetricParams.End_ params) now2)
      (stepOf params) "30s" in
  parses (QueryRangeMetricParams.Start params) ->
  parses (QueryRangeMetricParams.End_ params) ->
  run_trace h (QueryRangeMetric params) w
  = [Req time_Now; Req time_Now; Req request]
  /\ (forall result,
         (h _ request w2).1 = Ok result ->
         run_value h (QueryRangeMetric params) w
         = Ok (formatMetrics result (QueryRangeMetricParams.Query params)))
  /\ (forall (s : string) (d now : Z),
         s <> "now" -> time_ParseDuration s = Some d ->
         timeOf s now = (now + neg_Duration d)%Z
         /\ ((- 2 ^ 63 < d < 2 ^ 63)%Z -> timeOf s now = (now - d)%Z)
         /\ (d = (- 2 ^ 63)%Z -> timeOf s now = (now - 2 ^ 63)%Z)).
Proof.
  intros now1 w1 now2 w2 request Hs He.
  assert (Htime : forall (s : string) (d now : Z),
             s <> "now" -> time_ParseDuration s = Some d ->
             timeOf s now = (now + neg_Duration d)%Z
             /\ ((- 2 ^ 63 < d < 2 ^ 63)%Z -> timeOf s now = (now - d)%Z)
             /\ (d = (- 2 ^ 63)%Z -> timeOf s now = (now - 2 ^ 63)%Z)).
  { intros s d now Hs' Hd.
    assert (Ht : timeOf s now = (now + neg_Duration d)%Z).
    { unfold timeOf. rewrite decide_False by done. by rewrite Hd. }
    split; [done|]. rewrite Ht. split.
    - intros Hr. rewrite (proj1 (neg_Duration_spec d)) by done. lia.
    - intros ->. rewrite (proj2 (neg_Duration_spec (- 2 ^ 63)%Z)) by done. lia. }
  assert (Hrun : run h (QueryRangeMetric params) w
                 = (match (h _ request w2).1 with
                    | Err e => Err ("failed to query range metri c: " +:+ e)
                    | Ok result =>
                        Ok (formatMetrics result (QueryRangeMetricParams.Query params))
                    end, (h _ request w2).2,
                    [Req time_Now; Req time_Now; Req request])).
  { unfold QueryRangeMetric.
    rewrite run_bind, parseTime_timeOf by done. fold now1 w1.
    rewrite run_bind, parseTime_timeOf by done. fold now2 w2.
    rewrite is_empty_decide. fold (stepOf params). cbv zeta. fold request.
    rewrite run_bind, run_perform.
    by destruct (h _ request w2).1. }
  split; [|split].
  - unfold run_trace. by rewrite Hrun.
  - intros result Hres. unfold run_value. by rewrite Hrun, Hres.
  - exact Htime.
Qed.

Lemma countLines_app (s t : string) :
  countLines (s +:+ t) = (countLines s + countLines t)%nat.
Proof.
  induction s as [|a s IH]; [done|]. rewrite string_app_cons. cbn [countLines].
  rewrite IH. lia.
Qed.

Lemma countLines_concat (l : list string) :
  countLines (String.concat "" l) = sum_list (map countLines l).
Proof.
  induction l as [|x l IH]; [done|].
  rewrite concat_empty_sep_cons, countLines_app, IH. done.
Qed.

Lemma countLines_concat_zero {A} (f : A -> string) (l : list A) :
  (forall x, x ∈ l -> countLines (f x) = 0%nat) ->
  countLines (String.concat "" (map f l)) = 0%nat.
Proof.
  intros Hf. rewrite countLines_concat. induction l as [|x l IH]; [done|].
  cbn [map sum_list]. rewrite Hf by left. apply IH. intros y Hy. apply Hf. by right.
Qed.

Lemma countLines_concat_one {A} (f : A -> string) (l : list A) :
  (forall x, x ∈ l -> countLines (f x) = 1%nat) ->
  countLines (String.concat "" (map f l)) = length l.
Proof.
  intros Hf. rewrite countLines_concat. induction l as [|x l IH]; [done|].
  cbn [map sum_list length]. rewrite Hf by left. f_equal. apply IH.
  intros y Hy. apply Hf. by right.
Qed.

(** X14. The table of a non-empty sequence of series is the header line, the
    separator line and the data rows, as many as there are samples.  When
    no series has a sample it is the header and the separator alone: the
    text [No data found.] is kept for the empty sequence.  When no label key,
    no label value and no formatted time or number holds a line feed, the
    table has two lines more than there are samples. *)
Theorem formatMetrics_sample_count (metricsResult : list MetricResult.t)
    (queryName : string) :
  metricsResult <> [] ->
  let keys := sortedKeys metricsResult in
  formatMetrics metricsResult queryName
  = headerLine keys +:+ separatorLine keys
      +:+ String.concat "" (dataRows keys metricsResult)
  /\ length (dataRows keys metricsResult) = sampleCount metricsResult
  /\ (sampleCount metricsResult = 0%nat ->
      formatMetrics metricsResult queryName = headerLine keys +:+ separatorLine keys)
  /\ formatMetrics metricsResult queryName <> "No data found."
  /\ ((forall z, countLines (format_RFC3339 z) = 0%nat) ->
      (forall f, countLines (fmt_4f f) = 0%nat) ->
      (forall res k v,
          res ∈ metricsResult -> MetricResult.Labels res !! k = Some v ->
          countLines k = 0%nat /\ countLines v = 0%nat) ->
      countLines (formatMetrics metricsResult queryName)
      = (2 + sampleCount metricsResult)%nat).
Proof.
  intros Hne keys.
  assert (Hlen : forall l, length (dataRows keys l) = sampleCount l).
  { induction l as [|res l IH]; [done|].
    unfold dataRows, sampleCount in *. cbn [flat_map map sum_list].
    by rewrite length_app, length_map, IH. }
  split; [by apply formatMetrics_table|]. split; [apply Hlen|]. split; [|split].
  - intros Hzero. rewrite formatMetrics_table by done. fold keys.
    rewrite <- Hlen in Hzero.
    destruct (dataRows keys metricsResult); [|done].
    by rewrite string_app_nil_r.
  - rewrite formatMetrics_table by done. done.
  - intros Hts Hval Hlabels. rewrite formatMetrics_table by done. fold keys.
    assert (Hkeys : forall k, k ∈ keys -> countLines k = 0%nat).
    { intros k Hk. apply sortedKeys_elem in Hk as (_ & res & Hres & [v Hv]).
      by destruct (Hlabels res k v Hres Hv). }
    assert (Hcell : forall res k,
               res ∈ metricsResult -> countLines (labelValue res k) = 0%nat).
    { intros res k Hres. unfold labelValue.
      destruct (MetricResult.Labels res !! k) as [v|] eqn:Hv; simpl.
      - destruct (is_empty v); [reflexivity|].
        by destruct (Hlabels res k v Hres Hv).
      - reflexivity. }
    assert (Hrow : forall res p,
               res ∈ metricsResult -> countLines (dataRow keys res p) = 1%nat).
    { intros res p Hres. unfold dataRow. rewrite !countLines_app, Hts, Hval.
      rewrite countLines_concat_zero; [done|].
      intros k _. rewrite !countLines_app, (Hcell res k Hres). reflexivity. }
    assert (Hrows : forall l,
               (forall res, res ∈ l -> res ∈ metricsResult) ->
               countLines (String.concat "" (dataRows keys l)) = sampleCount l).
    { induction l as [|res l IH]; intros Hsub; [done|].
      unfold dataRows, sampleCount in *. cbn [flat_map map sum_list].
      rewrite concat_empty_sep_app, countLines_app.
      rewrite countLines_concat_one by (intros p _; apply Hrow, Hsub; left).
      f_equal. apply IH. intros res' Hin. apply Hsub. by right. }
    rewrite !countLines_app, Hrows by done.
    unfold headerLine, separatorLine. rewrite !countLines_app.
    rewrite (countLines_concat_zero (fun k => " " +:+ k +:+ " |"))
      by (intros k Hk; rewrite !countLines_app, (Hkeys k Hk); reflexivity).
    rewrite (countLines_concat_zero (fun _ : string => "---|"))
      by (intros; reflexivity).
    reflexivity.
Qed.
End MetricsMore.

Lemma ListMetrics_lookup_cap_witness :
  length (run_trace SampleMore.wide_backend
            (ListMetrics (golib := Sample.golib) (ListMetricsParams.mk "m")) 0%nat)
  = 52%nat.
Proof.
  destruct (ListMetrics_lookup_cap (golib := Sample.golib) SampleMore.wide_backend
              0%nat (ListMetricsParams.mk "m") SampleMore.many_names "m")
    as (Htr & _ & Hle).
  - vm_compute. discriminate.
  - reflexivity.
  - reflexivity.
  - apply Nat.le_antisymm; [exact Hle|].
    rewrite Htr. vm_compute. lia.
Defined.

Lemma ListMetrics_no_match_witness :
  run Sample.backend
    (ListMetrics (golib := Sample.golib) (ListMetricsParams.mk "zzz")) 0%nat
  = (Ok "No metrics found matching 'zzz'.", 2%nat,
     [Req time_Now; Req (ClientListMetrics (-3600000000000)%Z 0%Z)]).
Proof.
  refine (eq_trans
            (ListMetrics_no_match (golib := Sample.golib) Sample.backend 0%nat
               (ListMetricsParams.mk "zzz") ["cpu_a"; "mem"; "cpu_b"] "zzz" _ _ _ _) _).
  - vm_compute. discriminate.
  - reflexivity.
  - reflexivity.
  - intros m Hm.
    repeat (apply elem_of_cons in Hm as [->|Hm]; [reflexivity|]).
    by apply elem_of_nil in Hm.
  - vm_compute. reflexivity.
Defined.

Lemma primary_failure_witness :
  run SampleMore.wide_backend (GetMonitors (GetMonitorsParams.mk "")) 0%nat
  = (Err "failed to get monitors overview: backend down", 1%nat,
     [Req GetMonitorsOverview]).
Proof.
  destruct (primary_failure (golib := Sample.golib) SampleMore.wide_backend 0%nat
              "backend down") as (_ & Hmon & _).
  refine (eq_trans (Hmon (GetMonitorsParams.mk "") _ _) _).
  - apply validStates_spec. vm_compute. auto.
  - reflexivity.
  - vm_compute. reflexivity.
Defined.

Lemma QueryRangeMetric_time_errors_witness :
  run Sample.backend
    (QueryRangeMetric (golib := Sample.golib)
       (QueryRangeMetricParams.mk "up" "1h" "yesterday" "")) 0%nat
  = (Err "failed to parse end time: invalid time format: yesterday (expected 'now' or duration like '1h')",
     1%nat, [Req time_Now]).
Proof.
  destruct (QueryRangeMetric_time_errors (golib := Sample.golib) Sample.backend 0%nat
              (QueryRangeMetricParams.mk "up" "1h" "yesterday" "")) as [_ Hend].
  refine (eq_trans (Hend _ _) _).
  - right. vm_compute. eauto.
  - intros [Hnow|[d Hd]]; [discriminate Hnow | vm_compute in Hd; discriminate Hd].
  - vm_compute. reflexivity.
Defined.

Lemma QueryRangeMetric_request_witness :
  run_trace Sample.backend
    (QueryRangeMetric (golib := Sample.golib)
       (QueryRangeMetricParams.mk "up" "1h" "now" "")) 0%nat
  = [ Req time_Now; Req time_Now;
      Req (ClientQueryRangeMetric "up" (-3600000000000)%Z 1%Z "1m" "30s") ].
Proof.
  destruct (QueryRangeMetric_request (golib := Sample.golib) Sample.backend 0%nat
              (QueryRangeMetricParams.mk "up" "1h" "now" "")) as (Htr & _ & _).
  - right. vm_compute. eauto.
  - by left.
  - etrans; [exact Htr | vm_compute; reflexivity].
Defined.

Lemma formatMetrics_sample_count_witness :
  formatMetrics (golib := Sample.golib) [SampleMore.no_samples] "up"
  = String.concat nl [ "| Timestamp | Value | host |"; "|---|---|---|"; "" ]
  /\ countLines
       (formatMetrics (golib := SampleMore.plain_golib)
          [Sample.series1; Sample.series2] "up") = 5%nat.
Proof.
  split.
  - destruct (formatMetrics_sample_count (golib := Sample.golib)
                [SampleMore.no_samples] "up") as (_ & _ & Hzero & _).
    + discriminate.
    + etrans; [apply Hzero; reflexivity | vm_compute; reflexivity].
  - destruct (formatMetrics_sample_count (golib := SampleMore.plain_golib)
                [Sample.series1; Sample.series2] "up") as (_ & _ & _ & _ & Hlines).
    + discriminate.
    + refine (eq_trans (Hlines _ _ _) _).
      * reflexivity.
      * reflexivity.
      * assert (Hall : Forall (fun res : MetricResult.t =>
                                 map_Forall (fun k v : string =>
                                               countLines k = 0%nat
                                               /\ countLines v = 0%nat)
                                            (MetricResult.Labels res))
                              [Sample.series1; Sample.series2])
          by (apply (bool_decide_unpack _); vm_compute; exact I).
        intros res k v Hres Hv. rewrite Forall_forall in Hall.
        exact (Hall res Hres k v Hv).
      * reflexivity.
Defined.

(** ** Tags and the trace listing *)

Lemma strings_Cut_found (s : string) (sep : Ascii.ascii) :
  (strings_Cut s sep).2 = true ->
  s = (strings_Cut s sep).1.1 +:+ String sep (strings_Cut s sep).1.2.
Proof.
  induction s as [|a s IH]; [done|]. cbn [strings_Cut].
  destruct (Ascii.eqb_spec a sep) as [->|Hne]; [done|].
  destruct (strings_Cut s sep) as [[before after] found]. cbn [fst snd] in *.
  intros Hf. rewrite string_app_cons. f_equal. by apply IH.
Qed.

Lemma strings_Cut_not_found (s : string) (sep : Ascii.ascii) :
  (strings_Cut s sep).2 = false ->
  (strings_Cut s sep).1.1 = s /\ (strings_Cut s sep).1.2 = "".
Proof.
  induction s as [|a s IH]; [done|]. cbn [strings_Cut].
  destruct (Ascii.eqb_spec a sep) as [->|Hne]; [done|].
  destruct (strings_Cut s sep) as [[before after] found]. cbn [fst snd] in *.
  intros Hf. destruct (IH Hf) as [-> ->]. done.
Qed.

Lemma strings_Cut_found_iff (s : string) (sep : Ascii.ascii) :
  (strings_Cut s sep).2 = true <-> In sep (String.list_ascii_of_string s).
Proof.
  induction s as [|a s IH]; [simpl; split; [done | tauto]|]. cbn [strings_Cut].
  destruct (Ascii.eqb_spec a sep) as [->|Hne].
  - simpl. tauto.
  - destruct (strings_Cut s sep) as [[before after] found]. cbn [fst snd] in *.
    simpl. rewrite IH. split; [by right | by intros [?|?]].
Qed.

Lemma strings_Cut_before (s : string) (sep : Ascii.ascii) :
  ~ In sep (String.list_ascii_of_string (strings_Cut s sep).1.1).
Proof.
  induction s as [|a s IH]; [simpl; tauto|]. cbn [strings_Cut].
  destruct (Ascii.eqb_spec a sep) as [->|Hne]; [simpl; tauto|].
  destruct (strings_Cut s sep) as [[before after] found]. cbn [fst snd] in *.
  simpl. by intros [?|?].
Qed.

Lemma strings_Cut_app (before after : string) (sep : Ascii.ascii) :
  ~ In sep (String.list_ascii_of_string before) ->
  strings_Cut (before +:+ String sep after) sep = (before, after, true).
Proof.
  induction before as [|a before IH]; intros Hno.
  - rewrite string_app_nil_l. cbn [strings_Cut]. by rewrite Ascii.eqb_refl.
  - rewrite string_app_cons. cbn [strings_Cut].
    destruct (Ascii.eqb_spec a sep) as [->|Hne]; [destruct Hno; by left|].
    rewrite IH; [done|]. intros Hin. apply Hno. by right.
Qed.

Lemma splitTag_join (k v : string) :
  ~ In colon (String.list_ascii_of_string k) -> splitTag (k +:+ ":" +:+ v) = (k, v).
Proof.
  intros Hk. unfold splitTag.
  change (":" +:+ v) with (String colon v). by rewrite strings_Cut_app.
Qed.

(** X16. [splitTag] cuts a tag at its first colon: the key has no colon; a tag
    with a colon is its key, a colon and its value, so that the value keeps
    any later colon; a tag without colon is its own key, with the empty
    value; and a key without colon and a value put together with a colon are
    split back into the two. *)
Theorem splitTag_spec (input : string) :
  let key := (splitTag input).1 in
  let value := (splitTag input).2 in
  ~ In colon (String.list_ascii_of_string key)
  /\ (In colon (String.list_ascii_of_string input) -> input = key +:+ ":" +:+ value)
  /\ (~ In colon (String.list_ascii_of_string input) -> key = input /\ value = "")
  /\ (forall k v : string,
         ~ In colon (String.list_ascii_of_string k) -> splitTag (k +:+ ":" +:+ v) = (k, v)).
Proof.
  intros key value.
  assert (Hkv : key = (strings_Cut input colon).1.1
                /\ value = (strings_Cut input colon).1.2).
  { unfold key, value, splitTag.
    by destruct (strings_Cut input colon) as [[k v] f]. }
  destruct Hkv as [-> ->].
  split; [apply strings_Cut_before|]. split; [|split].
  - intros Hin. apply strings_Cut_found_iff in Hin.
    by apply strings_Cut_found in Hin.
  - intros Hno. apply strings_Cut_not_found.
    destruct (strings_Cut input colon).2 eqn:Hf; [|done].
    by apply strings_Cut_found_iff in Hf.
  - apply splitTag_join.
Qed.

Section ListTracesMore.
Context {tracelib : TraceLib}.

Lemma trun_TDo {W A R} (h : thandler W) (c : tcall R) (k : R -> tprog A) (w : W) :
  trun h (TDo A c k) w =
  let res := trun h (k (h R c w).1) (h R c w).2 in
  (res.1.1, res.1.2, TReq c :: res.2).
Proof.
  simpl. destruct (h R c w) as [r w']. simpl.
  by destruct (trun h (k r) w') as [[a w''] tr].
Qed.

Lemma findTags_first (before after : list ViewComponent.t) (c : ViewComponent.t)
    (componentID : Z) :
  (forall c', c' ∈ before -> ViewComponent.ID c' <> componentID) ->
  ViewComponent.ID c = componentID ->
  findTags (before ++ c :: after) componentID = ViewComponent.Tags c.
Proof.
  intros Hbefore Hc. induction before as [|c' before IH]; simpl.
  - by rewrite Hc, Z.eqb_refl.
  - destruct (Z.eqb_spec (ViewComponent.ID c') componentID) as [Heq|_].
    + destruct (Hbefore c'); [left | done].
    + apply IH. intros c'' Hin. apply Hbefore. by right.
Qed.

Lemma findTags_none (components : list ViewComponent.t) (componentID : Z) :
  (forall c, c ∈ components -> ViewComponent.ID c <> componentID) ->
  findTags components componentID = [].
Proof.
  intros Hnone. induction components as [|c cs IH]; [done|]. simpl.
  destruct (Z.eqb_spec (ViewComponent.ID c) componentID) as [Heq|_].
  - destruct (Hnone c); [left | done].
  - apply IH. intros c' Hin. apply Hnone. by right.
Qed.

Lemma serviceOf_snoc (tags : list string) (tag : string) :
  serviceOf (tags ++ [tag]) = tagStep (serviceOf tags) tag.
Proof. unfold serviceOf. by rewrite foldl_app. Qed.

Lemma foldl_tagStep_name (tags : list string) (name namespace : string) :
  (forall t, t ∈ tags -> (splitTag t).1 <> "service.name") ->
  (foldl tagStep (name, namespace) tags).1 = name.
Proof.
  revert name namespace. induction tags as [|t tags IH]; intros name namespace Hno;
    [done|].
  cbn [foldl]. unfold tagStep at 2.
  pose proof (Hno t ltac:(left)) as Ht.
  destruct (splitTag t) as [key value]. cbn [fst] in Ht.
  apply String.eqb_neq in Ht. rewrite Ht.
  apply IH. intros t' Hin. apply Hno. by right.
Qed.

Lemma foldl_tagStep_namespace (tags : list string) (name namespace : string) :
  (forall t, t ∈ tags -> (splitTag t).1 <> "service.namespace") ->
  (foldl tagStep (name, namespace) tags).2 = namespace.
Proof.
  revert name namespace. induction tags as [|t tags IH]; intros name namespace Hno;
    [done|].
  cbn [foldl]. unfold tagStep at 2.
  pose proof (Hno t ltac:(left)) as Ht.
  destruct (splitTag t) as [key value]. cbn [fst] in Ht.
  apply String.eqb_neq in Ht. rewrite Ht.
  apply IH. intros t' Hin. apply Hno. by right.
Qed.

(** X17. The service name read off the tags is the value of the last tag whose
    key is [service.name], and the namespace that of the last tag whose key
    is [service.namespace]; each is empty when no tag has the key. *)
Theorem serviceOf_last (before after : list string) (v : string) :
  ((forall t, t ∈ after -> (splitTag t).1 <> "service.name") ->
   (serviceOf (before ++ ("service.name:" +:+ v) :: after)).1 = v)
  /\ ((forall t, t ∈ after -> (splitTag t).1 <> "service.namespace") ->
      (serviceOf (before ++ ("service.namespace:" +:+ v) :: after)).2 = v)
  /\ ((forall t, t ∈ after -> (splitTag t).1 <> "service.name") ->
      (serviceOf after).1 = "")
  /\ ((forall t, t ∈ after -> (splitTag t).1 <> "service.namespace") ->
      (serviceOf after).2 = "").
Proof.
  assert (Hname : splitTag ("service.name:" +:+ v) = ("service.name", v)).
  { change ("service.name:" +:+ v) with ("service.name" +:+ ":" +:+ v).
    apply splitTag_join. by intros Hin%strings_Cut_found_iff. }
  assert (Hns : splitTag ("service.namespace:" +:+ v) = ("service.namespace", v)).
  { change ("service.namespace:" +:+ v) with ("service.namespace" +:+ ":" +:+ v).
    apply splitTag_join. by intros Hin%strings_Cut_found_iff. }
  split; [|split; [|split]].
  - intros Hafter. unfold serviceOf. rewrite foldl_app. cbn [foldl].
    destruct (foldl tagStep ("", "") before) as [name namespace].
    unfold tagStep at 2. rewrite Hname. cbn.
    by apply foldl_tagStep_name.
  - intros Hafter. unfold serviceOf. rewrite foldl_app. cbn [foldl].
    destruct (foldl tagStep ("", "") before) as [name namespace].
    unfold tagStep at 2. rewrite Hns. cbn.
    by apply foldl_tagStep_namespace.
  - intros Hafter. by apply foldl_tagStep_name.
  - intros Hafter. by apply foldl_tagStep_namespace.
Qed.
End ListTracesMore.

Section ListTracesHandler.
Context {tracelib : TraceLib}.

Lemma ListTraces_run {W} (h : thandler W) (w : W) (params : ListTracesParams.t) :
  let topology := Core (SnapShotTopologyQuery tracesQuery) in
  let w1 := (h _ topology w).2 in
  let components := match (h _ topology w).1 with Ok cs => cs | Err _ => [] end in
  let tags := findTags components (ListTracesParams.ComponentID params) in
  let name := (serviceOf tags).1 in
  let namespace := (serviceOf tags).2 in
  let now := (h _ (Core time_Now) w1).1 in
  let w2 := (h _ (Core time_Now) w1).2 in
  let req := TracesRequest.mk (now + - time_Hour)%Z now 0 100 [name] [namespace] in
  trun h (ListTraces params) w
  = if (length tags =? 0)%nat then
      (Err "Component not found", w1, [TReq topology])
    else if is_empty name || is_empty namespace then
      (Err "Component has no service name and namespace defined", w1,
       [TReq topology])
    else
      (match (h _ (ClientQueryTraces req) w2).1 with
       | Err e => Err e
       | Ok result => json_Marshal result
       end,
       (h _ (ClientQueryTraces req) w2).2,
       [TReq topology; TReq (Core time_Now); TReq (ClientQueryTraces req)]).
Proof.
  intros topology w1 components tags name namespace now w2 req.
  unfold ListTraces. rewrite trun_TDo. fold topology w1 components. cbv zeta.
  fold tags. destruct (length tags =? 0)%nat; [done|].
  unfold name, namespace in *. destruct (serviceOf tags) as [n ns]. cbn [fst snd] in *.
  destruct (is_empty n || is_empty ns); [done|].
  rewrite !trun_TDo. fold now w2. cbv zeta. fold req.
  destruct (h _ (ClientQueryTraces req) w2).1 as [result|e]; [|done].
  by destruct (json_Marshal result).
Qed.

(** X18. When no component of the answer has the identifier asked for, or the
    first that has it carries no tag, [ListTraces] fails with [Component not
    found] after the topology query alone. *)
Theorem ListTraces_not_found {W} (h : thandler W) (w : W)
    (params : ListTracesParams.t) (components : list ViewComponent.t) :
  let topology := Core (SnapShotTopologyQuery tracesQuery) in
  let componentID := ListTracesParams.ComponentID params in
  (h _ topology w).1 = Ok components ->
  ((forall c, c ∈ components -> ViewComponent.ID c <> componentID)
   \/ exists before c after,
       components = before ++ c :: after
       /\ (forall c', c' ∈ before -> ViewComponent.ID c' <> componentID)
       /\ ViewComponent.ID c = componentID
       /\ ViewComponent.Tags c = []) ->
  trun h (ListTraces params) w
  = (Err "Component not found", (h _ topology w).2, [TReq topology]).
Proof.
  intros topology componentID Hans Hnone.
  rewrite ListTraces_run. fold topology. rewrite Hans. fold componentID.
  assert (Htags : findTags components componentID = []).
  { destruct Hnone as [Hnone|(before & c & after & -> & Hb & Hc & Ht)].
    - by apply findTags_none.
    - by rewrite findTags_first. }
  by rewrite Htags.
Qed.

(** X19. The error of the topology query is not passed on: when the query fails,
    the client giving no component, [ListTraces] fails with [Component not
    found] as well, and the failure of the backend is lost. *)
Theorem ListTraces_lookup_failure {W} (h : thandler W) (w : W)
    (params : ListTracesParams.t) (e : string) :
  let topology := Core (SnapShotTopologyQuery tracesQuery) in
  (h _ topology w).1 = Err e ->
  trun h (ListTraces params) w
  = (Err "Component not found", (h _ topology w).2, [TReq topology]).
Proof.
  intros topology Hans. rewrite ListTraces_run. fold topology. by rewrite Hans.
Qed.

(** X20. When the tags of the first component with the identifier give no
    service name or no namespace, [ListTraces] fails with [Component has no
    service name and namespace defined] and asks for no trace. *)
Theorem ListTraces_no_service {W} (h : thandler W) (w : W)
    (params : ListTracesParams.t) (before after : list ViewComponent.t)
    (c : ViewComponent.t) :
  let topology := Core (SnapShotTopologyQuery tracesQuery) in
  let componentID := ListTracesParams.ComponentID params in
  (h _ topology w).1 = Ok (before ++ c :: after) ->
  (forall c', c' ∈ before -> ViewComponent.ID c' <> componentID) ->
  ViewComponent.ID c = componentID ->
  ViewComponent.Tags c <> [] ->
  (serviceOf (ViewComponent.Tags c)).1 = ""
  \/ (serviceOf (ViewComponent.Tags c)).2 = "" ->
  trun h (ListTraces params) w
  = (Err "Component has no service name and namespace defined",
     (h _ topology w).2, [TReq topology]).
Proof.
  intros topology componentID Hans Hb Hc Htags Hmissing.
  rewrite ListTraces_run. fold topology. rewrite Hans. fold componentID.
  rewrite findTags_first by done.
  destruct (ViewComponent.Tags c) as [|t ts] eqn:Ht; [done|].
  cbn [length Nat.eqb].
  assert (Hor : is_empty (serviceOf (t :: ts)).1 || is_empty (serviceOf (t :: ts)).2
                = true).
  { apply orb_true_iff. rewrite !is_empty_true. exact Hmissing. }
  by rewrite Hor.
Qed.

(** X21. When the tags of the first component with the identifier give a service
    name and a namespace, [ListTraces] reads the clock and sends one trace
    query, for this one name and this one namespace, over the hour before the
    reading, page 0 of size 100.  An error of the query is returned as it
    is, and an answer is returned as [json.Marshal] encodes it. *)
Theorem ListTraces_request {W} (h : thandler W) (w : W)
    (params : ListTracesParams.t) (before after : list ViewComponent.t)
    (c : ViewComponent.t) (name namespace : string) :
  let topology := Core (SnapShotTopologyQuery tracesQuery) in
  let componentID := ListTracesParams.ComponentID params in
  let w1 := (h _ topology w).2 in
  let now := (h _ (Core time_Now) w1).1 in
  let w2 := (h _ (Core time_Now) w1).2 in
  let req := TracesRequest.mk (now + - time_Hour)%Z now 0 100 [name] [namespace] in
  (h _ topology w).1 = Ok (before ++ c :: after) ->
  (forall c', c' ∈ before -> ViewComponent.ID c' <> componentID) ->
  ViewComponent.ID c = componentID ->
  serviceOf (ViewComponent.Tags c) = (name, namespace) ->
  name <> "" ->
  namespace <> "" ->
  trun h (ListTraces params) w
  = (match (h _ (ClientQueryTraces req) w2).1 with
     | Err e => Err e
     | Ok result => json_Marshal result
     end,
     (h _ (ClientQueryTraces req) w2).2,
     [TReq topology; TReq (Core time_Now); TReq (ClientQueryTraces req)]).
Proof.
  intros topology componentID w1 now w2 req Hans Hb Hc Hsvc Hname Hns.
  rewrite ListTraces_run. fold topology. rewrite Hans. fold componentID.
  rewrite findTags_first by done. rewrite Hsvc. cbn [fst snd].
  destruct (ViewComponent.Tags c) as [|t ts] eqn:Ht.
  { cbv in Hsvc. by injection Hsvc as <- <-. }
  cbn [length Nat.eqb].
  apply is_empty_false in Hname. apply is_empty_false in Hns.
  by rewrite Hname, Hns.
Qed.
End ListTracesHandler.

Lemma splitTag_spec_witness :
  splitTag "service.name:cart:v2" = ("service.name", "cart:v2").
Proof.
  change "service.name:cart:v2" with ("service.name" +:+ ":" +:+ "cart:v2").
  apply (proj2 (proj2 (proj2 (splitTag_spec "")))).
  by intros Hin%strings_Cut_found_iff.
Defined.

Lemma serviceOf_last_witness :
  (serviceOf ["service.name:a"; "service.name:b"; "team:x"]).1 = "b".
Proof.
  apply (proj1 (serviceOf_last ["service.name:a"] ["team:x"] "b")).
  intros t Ht. apply list_elem_of_singleton in Ht as ->. vm_compute. discriminate.
Defined.

Lemma ListTraces_not_found_witness :
  trun SampleTraces.backend
    (ListTraces (tracelib := SampleTraces.tracelib) (ListTracesParams.mk 9)) 0%nat
  = (Err "Component not found", 1%nat,
     [TReq (Core (SnapShotTopologyQuery tracesQuery))]).
Proof.
  apply (ListTraces_not_found (tracelib := SampleTraces.tracelib)
           SampleTraces.backend 0%nat (ListTracesParams.mk 9) SampleTraces.services).
  - reflexivity.
  - left. intros c Hc. vm_compute in Hc.
    repeat (apply elem_of_cons in Hc as [->|Hc]; [vm_compute; discriminate|]).
    by apply elem_of_nil in Hc.
Defined.

Lemma ListTraces_no_service_witness :
  trun SampleTraces.backend
    (ListTraces (tracelib := SampleTraces.tracelib) (ListTracesParams.mk 8)) 0%nat
  = (Err "Component has no service name and namespace defined", 1%nat,
     [TReq (Core (SnapShotTopologyQuery tracesQuery))]).
Proof.
  apply (ListTraces_no_service (tracelib := SampleTraces.tracelib)
           SampleTraces.backend 0%nat (ListTracesParams.mk 8)
           [ViewComponent.mk 7 "cart" "otel service" []
              ["stackpack:open-telemetry"; "service.name:cart"; "service.namespace:shop"] []]
           [ViewComponent.mk 7 "cart-copy" "otel service" [] ["service.name:other"] []]
           (ViewComponent.mk 8 "mail" "otel service" [] ["service.name:mail"] [])).
  - reflexivity.
  - intros c Hc. apply list_elem_of_singleton in Hc as ->. vm_compute. discriminate.
  - reflexivity.
  - discriminate.
  - right. vm_compute. reflexivity.
Defined.

Lemma ListTraces_request_witness :
  trun SampleTraces.backend
    (ListTraces (tracelib := SampleTraces.tracelib) (ListTracesParams.mk 7)) 0%nat
  = (Ok "1", 3%nat,
     [ TReq (Core (SnapShotTopologyQuery tracesQuery));
       TReq (Core time_Now);
       TReq (ClientQueryTraces
               (TracesRequest.mk (-3599999999999)%Z 1%Z 0 100 ["cart"] ["shop"])) ]).
Proof.
  refine (eq_trans
            (ListTraces_request (tracelib := SampleTraces.tracelib)
               SampleTraces.backend 0%nat (ListTracesParams.mk 7) []
               (tl SampleTraces.services) (hd (ViewComponent.mk 0 "" "" [] [] [])
                                              SampleTraces.services)
               "cart" "shop" _ _ _ _ _ _) _).
  - reflexivity.
  - intros c Hc. by apply elem_of_nil in Hc.
  - reflexivity.
  - vm_compute. reflexivity.
  - discriminate.
  - discriminate.
  - vm_compute. reflexivity.
Defined.

Lemma ListTraces_lookup_failure_witness :
  trun SampleTraces.down_backend
    (ListTraces (tracelib := SampleTraces.tracelib) (ListTracesParams.mk 7)) 0%nat
  = (Err "Component not found", 1%nat,
     [TReq (Core (SnapShotTopologyQuery tracesQuery))]).
Proof.
  apply (ListTraces_lookup_failure (tracelib := SampleTraces.tracelib)
           SampleTraces.down_backend 0%nat (ListTracesParams.mk 7)
           "connection refused").
  reflexivity.
Defined.

Lemma sortedKeys_any_order_witness :
  merge_sort String.le ["zone"; "pod"; "app"; "Pod"]
  = sortedKeys [Sample.series1; Sample.series2].
Proof.
  apply sortedKeys_any_order.
  replace (elements (collectLabelKeys [Sample.series1; Sample.series2]))
    with ["app"; "zone"; "pod"; "Pod"] by (vm_compute; reflexivity).
  solve_Permutation.
Defined.
